(** * ProjectSCARS central server: authentication and configuration

    A shallow embedding of the parts of the central server that the
    specification talks about: the configuration objects of
    [centralserver/internals/config_handler.py], the user handler of
    [centralserver/internals/user_handler.py], the OAuth adapters of
    [centralserver/internals/adapters/oauth.py] and the authentication
    routes of [centralserver/routers/auth_routes].

    Python exceptions are values of [Exn]; a call that may raise returns
    [Result A].  The database session is an explicit state that every
    handler receives and returns. *)

From Stdlib Require Import ZArith Ascii String.
From stdpp Require Import base option strings list gmap fin_maps pretty.

Local Open Scope string_scope.
Local Open Scope Z_scope.

Set Warnings "-register-all".

(** ** Python basics *)

Module Py.

(** The exceptions that the modelled code raises or lets through. *)
Inductive Exn : Type :=
| HTTPException (status_code : Z) (detail : string)
| ValueError (msg : string)
| AssertionError (msg : string)
| AttributeError (msg : string)
| JSONDecodeError
| TimeoutException
| IntegrityError
| TypeError (msg : string).

(** The outcome of a call: it raises or it returns. *)
Inductive Result (A : Type) : Type :=
| Raised (e : Exn)
| Returned (a : A).
Arguments Raised {A} e.
Arguments Returned {A} a.

#[global] Instance Result_ret : MRet Result := λ A a, Returned a.
#[global] Instance Result_bind : MBind Result := λ A B k m,
  match m with
  | Raised e => Raised e
  | Returned a => k a
  end.

Definition raise {A} (e : Exn) : Result A := Raised e.

Definition returns {A} (m : Result A) : bool :=
  match m with Returned _ => true | Raised _ => false end.

(** Truth value testing ([bool(x)]) for the types used in the
    configuration: [False], [0], [""] and [[]] are falsy. *)
Class Truthy (A : Type) := truthy : A → bool.

#[global] Instance bool_truthy : Truthy bool := λ b, b.
#[global] Instance Z_truthy : Truthy Z := λ z, negb (Z.eqb z 0).
#[global] Instance string_truthy : Truthy string :=
  λ s, match s with EmptyString => false | String _ _ => true end.
#[global] Instance list_truthy {A} : Truthy (list A) :=
  λ l, match l with [] => false | _ :: _ => true end.
#[global] Instance option_truthy {A} `{Truthy A} : Truthy (option A) :=
  λ o, match o with None => false | Some a => truthy a end.

(** [x or d] where [x : A | None]: the left operand unless it is falsy. *)
Definition py_or {A} `{Truthy A} (x : option A) (d : A) : A :=
  match x with
  | Some v => if truthy v then v else d
  | None => d
  end.

(** What an argument looks like to [or]: a falsy value behaves as an
    omitted one. *)
Definition falsy_to_None {A} `{Truthy A} (x : option A) : option A :=
  match x with
  | Some v => if truthy v then Some v else None
  | None => None
  end.

(** [posixpath.join(a, b)]. *)
Definition path_join2 (path b : string) : string :=
  if String.prefix "/" b then b
  else if negb (truthy path) || String.prefix "/" (String.rev path)
       then path +:+ b
       else path +:+ "/" +:+ b.

(** [os.path.join(a, *p)]. *)
Definition path_join (a : string) (p : list string) : string :=
  foldl path_join2 a p.

(** [s[:-1]]. *)
Definition drop_last (s : string) : string :=
  String.substring 0 (Nat.pred (String.length s)) s.

(** ['a'], ['a' and 'b'], ['a', 'b', and 'c']: the names in the message of
    a call that misses arguments. *)
Fixpoint quoted_names_and (names : list string) : string :=
  match names with
  | [] => ""
  | [last] => "and '" +:+ last +:+ "'"
  | name :: rest => "'" +:+ name +:+ "', " +:+ quoted_names_and rest
  end.

Definition quoted_names (names : list string) : string :=
  match names with
  | [] => ""
  | [name] => "'" +:+ name +:+ "'"
  | [name; last] => "'" +:+ name +:+ "' and '" +:+ last +:+ "'"
  | _ => quoted_names_and names
  end.

Definition plural (n : nat) (noun : string) : string :=
  pretty n +:+ " " +:+ noun +:+ (if bool_decide (n = 1%nat) then "" else "s").

(** The keyword arguments of a call, bound one after the other: a name that
    is no parameter of the function is refused, and so is one whose
    parameter has its value already. *)
Fixpoint bind_keywords (name : string) (parameters bound : list string)
    (keywords : list string) : Result (list string) :=
  match keywords with
  | [] => mret bound
  | keyword :: rest =>
      if bool_decide (keyword ∉ parameters)
      then raise (TypeError (name +:+ "() got an unexpected keyword argument '"
                             +:+ keyword +:+ "'"))
      else if bool_decide (keyword ∈ bound)
      then raise (TypeError (name +:+ "() got multiple values for argument '"
                             +:+ keyword +:+ "'"))
      else bind_keywords name parameters (keyword :: bound) rest
  end.

(** Calling [def name(p1, ..., pn)], a function without default values,
    [*args] or [**kwargs], with [positional] positional arguments and the
    keyword arguments [keywords].  The arguments are bound before the body
    runs: the positional ones first, then the keywords, then the count of
    the positional ones is checked, then that no parameter is left without
    a value. *)
Definition bind_arguments (name : string) (parameters : list string)
    (positional : nat) (keywords : list string) : Result unit :=
  bound ← bind_keywords name parameters (take positional parameters)
             keywords;
  if bool_decide (length parameters < positional)%nat
  then raise (TypeError (name +:+ "() takes "
                         +:+ plural (length parameters) "positional argument"
                         +:+ " but " +:+ pretty positional
                         +:+ (if bool_decide (positional = 1%nat)
                              then " was given" else " were given")))
  else
    match filter (λ parameter, parameter ∉ bound) parameters with
    | [] => mret tt
    | missing =>
        raise (TypeError (name +:+ "() missing "
                          +:+ plural (length missing)
                                "required positional argument"
                          +:+ ": " +:+ quoted_names missing))
    end.

(** [await value] on a value that is not awaitable, a [bool] or a model
    instance: [TypeError], and no value to go on with.  [type_name] is
    [type(value).__name__]. *)
Definition await_value {A} (type_name : string) (value : A)
    : Result Empty_set :=
  raise (TypeError ("object " +:+ type_name
                    +:+ " can't be used in 'await' expression")).

End Py.

Export Py.

(** ** [centralserver/internals/config_handler.py] *)

Module ConfigHandler.

Record Debug := mkDebug {
  enabled : bool;
  use_test_db : bool
}.

Definition Debug_init (enabled use_test_db : option bool) : Debug :=
  {| enabled := py_or enabled false;
     use_test_db := py_or use_test_db false |}.

Record Logging := mkLogging {
  filepath : string;
  max_bytes : Z;
  backup_count : Z;
  log_encoding : string;
  log_format : string;
  date_format : string
}.

(** [cwd] is the result of [os.getcwd()]. *)
Definition Logging_init (cwd : string)
    (filepath : option string) (max_bytes backup_count : option Z)
    (encoding log_format date_format : option string) : Logging :=
  {| filepath :=
       py_or filepath (path_join cwd ["logs"; "centralserver-{0}.log"]);
     max_bytes := py_or max_bytes 10485760;
     backup_count := py_or backup_count 5;
     log_encoding := py_or encoding "utf-8";
     log_format :=
       py_or log_format "%(asctime)s:%(name)s:%(levelname)s:%(message)s";
     date_format := py_or date_format "%d-%m-%y_%H-%M-%S" |}.

Record Database := mkDatabase {
  db_type : string;
  db_driver : string;
  db_username : string;
  db_password : string;
  host : string;
  port : Z;
  database : string
}.

Definition Database_init
    (db_type db_driver username password host : option string)
    (port : option Z) (database : option string) : Database :=
  {| db_type := py_or db_type "mysql";
     db_driver := py_or db_driver "pymysql";
     db_username := py_or username "root";
     db_password := py_or password "";
     host := py_or host "localhost";
     port := py_or port 3306;
     database := py_or database "projectscars" |}.

Record TestDatabase := mkTestDatabase {
  test_filepath : string
}.

Definition TestDatabase_init (cwd : string) (filepath : option string)
    : TestDatabase :=
  {| test_filepath :=
       py_or filepath (path_join cwd ["tests"; "data"; "test.db"]) |}.

Record Authentication := mkAuthentication {
  signing_secret_key : string;
  refresh_signing_secret_key : string;
  encryption_secret_key : string;
  signing_algorithm : string;
  encryption_algorithm : string;
  auth_encoding : string;
  access_token_expire_minutes : Z;
  refresh_token_expire_minutes : Z
}.

Definition Authentication_init
    (signing_secret_key refresh_signing_secret_key
     encryption_secret_key : option string)
    (signing_algorithm encryption_algorithm encoding : option string)
    (access_token_expire_minutes refresh_token_expire_minutes : option Z)
    : Result Authentication :=
  match signing_secret_key, refresh_signing_secret_key,
        encryption_secret_key with
  | Some sk, Some rk, Some ek =>
      mret {| signing_secret_key := sk;
             refresh_signing_secret_key := rk;
             encryption_secret_key := ek;
             signing_algorithm := py_or signing_algorithm "HS256";
             encryption_algorithm := py_or encryption_algorithm "A256GCM";
             auth_encoding := py_or encoding "utf-8";
             access_token_expire_minutes :=
               py_or access_token_expire_minutes 30;
             refresh_token_expire_minutes :=
               py_or refresh_token_expire_minutes 10080 |}
  | _, _, _ =>
      raise (ValueError
        "Signing or encryption secret key is empty in configuration file.")
  end.

Record Security := mkSecurity {
  allow_origins : list string;
  allow_credentials : bool;
  allow_methods : list string;
  allow_headers : list string
}.

Definition Security_init
    (allow_origins : option (list string))
    (allow_credentials : option bool)
    (allow_methods allow_headers : option (list string)) : Security :=
  {| allow_origins := py_or allow_origins ["*"];
     allow_credentials := py_or allow_credentials true;
     allow_methods := py_or allow_methods ["*"];
     allow_headers := py_or allow_headers ["*"] |}.

End ConfigHandler.

(** ** [tests/test_confighandler.py]: the authentication key tests *)

Module TestConfigHandler.
Import ConfigHandler.

Definition DEFAULT_VALUE : string := "UPDATE_THIS_VALUE".
Definition VALID_SIGNING_KEY : string :=
  "b5eeca9520e2ada4ad96e1981d5c8f5515685201bfc2a19ad1fbee12ef8ba5d2".
Definition VALID_REFRESH_SIGNING_KEY : string :=
  "cc20b62bb11859aa2b4140fc1641f11659bdbe8860faa8c9629be006d165a26a".
Definition VALID_ENCRYPTION_KEY : string :=
  "74969957b5a005133b3f1ab7dbbcedcf".

(** [Authentication(signing_secret_key=..., refresh_signing_secret_key=...,
    encryption_secret_key=...)], the other arguments omitted. *)
Definition Authentication_keys (sk rk ek : option string)
    : Result Authentication :=
  Authentication_init sk rk ek None None None None None.

(** [try: _ = c  except ValueError: pass  else: raise AssertionError(...)] *)
Definition expect_ValueError {A} (c : Result A) : Result unit :=
  match c with
  | Raised (ValueError _) => mret tt
  | Raised e => raise e
  | Returned _ =>
      raise (AssertionError
        "Expected ValueError, but no exception was raised.")
  end.

(** [for key in keys: body key], stopping at the first exception. *)
Fixpoint for_each {A} (keys : list A) (body : A → Result unit)
    : Result unit :=
  match keys with
  | [] => mret tt
  | key :: rest => body key ;; for_each rest body
  end.

Definition test_config_authentication_all_keys_unpopulated : Result unit :=
  expect_ValueError
    (Authentication_keys (Some DEFAULT_VALUE) (Some DEFAULT_VALUE)
       (Some DEFAULT_VALUE)).

Definition test_config_authentication_signing_key_unpopulated
    : Result unit :=
  expect_ValueError
    (Authentication_keys (Some DEFAULT_VALUE)
       (Some VALID_REFRESH_SIGNING_KEY) (Some VALID_ENCRYPTION_KEY)).

Definition test_config_authentication_refresh_signing_key_unpopulated
    : Result unit :=
  expect_ValueError
    (Authentication_keys (Some VALID_SIGNING_KEY) (Some DEFAULT_VALUE)
       (Some VALID_ENCRYPTION_KEY)).

Definition test_config_authentication_encryption_key_unpopulated
    : Result unit :=
  expect_ValueError
    (Authentication_keys (Some VALID_SIGNING_KEY)
       (Some VALID_REFRESH_SIGNING_KEY) (Some DEFAULT_VALUE)).

Definition test_config_authentication_signing_key_none : Result unit :=
  expect_ValueError
    (Authentication_keys None (Some VALID_REFRESH_SIGNING_KEY)
       (Some VALID_ENCRYPTION_KEY)).

Definition test_config_authentication_refresh_signing_key_none
    : Result unit :=
  expect_ValueError
    (Authentication_keys (Some VALID_SIGNING_KEY) None
       (Some VALID_ENCRYPTION_KEY)).

Definition test_config_authentication_encryption_key_none : Result unit :=
  expect_ValueError
    (Authentication_keys (Some VALID_SIGNING_KEY)
       (Some VALID_REFRESH_SIGNING_KEY) None).

Definition test_config_authentication_signing_key_invalid : Result unit :=
  for_each [drop_last VALID_SIGNING_KEY; VALID_SIGNING_KEY +:+ "1"]
    (λ key, expect_ValueError
       (Authentication_keys (Some key) (Some VALID_REFRESH_SIGNING_KEY)
          (Some VALID_ENCRYPTION_KEY))).

Definition test_config_authentication_refresh_signing_key_invalid
    : Result unit :=
  for_each
    [drop_last VALID_REFRESH_SIGNING_KEY; VALID_REFRESH_SIGNING_KEY +:+ "1"]
    (λ key, expect_ValueError
       (Authentication_keys (Some VALID_SIGNING_KEY) (Some key)
          (Some VALID_ENCRYPTION_KEY))).

Definition test_config_authentication_encryption_key_invalid
    : Result unit :=
  for_each [drop_last VALID_ENCRYPTION_KEY; VALID_ENCRYPTION_KEY +:+ "1"]
    (λ key, expect_ValueError
       (Authentication_keys (Some VALID_SIGNING_KEY)
          (Some VALID_REFRESH_SIGNING_KEY) (Some key))).

Definition test_config_authentication_all_keys_valid : Result unit :=
  Authentication_keys (Some VALID_SIGNING_KEY)
    (Some VALID_REFRESH_SIGNING_KEY) (Some VALID_ENCRYPTION_KEY) ;;
  mret tt.

End TestConfigHandler.

(** ** The records of [centralserver/internals/models] *)

Module Models.

(** Modelled from the spec: the model classes ([models/user.py],
    [models/role.py], [models/token.py]) are not part of the sources at
    hand.  The records carry the fields that the handlers read or write and
    that the data model of the specification lists: identity, credentials,
    role, OAuth linkage ids per provider, MFA secret and nonce, last-login
    metadata.  Times are seconds since the epoch. *)
Record User := mkUser {
  id : string;
  username : string;
  password : string;
  roleId : Z;
  email : option string;
  nameFirst : option string;
  nameMiddle : option string;
  nameLast : option string;
  position : option string;
  schoolId : option Z;
  otpSecret : option string;
  otpVerified : bool;
  otpNonce : option string;
  otpNonceExpires : option Z;
  lastLoggedInTime : option Z;
  lastLoggedInIp : option string;
  oauthLinkedGoogleId : option string;
  oauthLinkedMicrosoftId : option string;
  oauthLinkedFacebookId : option string
}.

(** Model instances are objects without [__bool__] or [__len__]: truthy. *)
#[global] Instance User_truthy : Truthy User := λ _, true.

(** A role: id, description and the modifiable flag, as seeded by
    [populate_db]. *)
Record Role := mkRole {
  role_id : Z;
  description : string;
  modifiable : bool
}.

#[global] Instance Role_truthy : Truthy Role := λ _, true.

(** The request bodies: [NewUserRequest]/[UserCreate] and [UserInvite]. *)
Record UserCreate := mkUserCreate {
  new_username : string;
  new_roleId : Z;
  new_password : string;
  new_email : option string;
  new_nameFirst : option string;
  new_nameMiddle : option string;
  new_nameLast : option string;
  new_position : option string;
  new_schoolId : option Z
}.

Record UserInvite := mkUserInvite {
  inv_username : string;
  inv_roleId : Z;
  inv_email : option string;
  inv_nameFirst : option string;
  inv_nameMiddle : option string;
  inv_nameLast : option string;
  inv_position : option string;
  inv_schoolId : option Z
}.

(** Modelled from the spec: a token is of access or of refresh kind, and
    verification yields the subject id and the kind. *)
Inductive TokenKind := AccessKind | RefreshKind.

Record DecodedJWTToken := mkDecodedJWTToken {
  token_id : string;
  token_kind : TokenKind
}.

Record JWTToken := mkJWTToken {
  uid : string;
  access_token : string;
  refresh_token : option string;
  token_type : string
}.

(** The database behind a [Session]: the user table keyed by user id and
    the role table keyed by role id. *)
Record Session := mkSession {
  users : gmap string User;
  roles : gmap Z Role
}.

(** [session.get(User, key)] and [session.get(Role, key)]. *)
Definition get_User (session : Session) (key : string) : option User :=
  users session !! key.
Definition get_Role (session : Session) (key : Z) : option Role :=
  roles session !! key.

(** [session.exec(select(User).where(User.username == name)).first()]. *)
Definition first_User_where_username (session : Session) (name : string)
    : option User :=
  head (filter (λ u : User, username u = name)
          ((map_to_list (users session)).*2)).

(** Writing one user row at commit. *)
Definition put_User (session : Session) (u : User) : Session :=
  {| users := <[id u := u]> (users session); roles := roles session |}.

(** Deleting the row of a user. *)
Definition delete_User (session : Session) (key : string) : Session :=
  {| users := delete key (users session); roles := roles session |}.

(** The id column is the primary key: a row is stored under its id. *)
Definition consistent (session : Session) : Prop :=
  map_Forall (λ key u, id u = key) (users session).

End Models.

(** ** The interface of [centralserver/internals/auth_handler.py]

    The authentication handler is imported by the user handler and by the
    routes; its operations are the parameters of everything below. *)

Module AuthHandler.
Import Models.

(** What [authenticate_user] returns: the user, or a status code with a
    detail message. *)
Inductive AuthOutcome :=
| AuthUser (user : User)
| AuthFailure (status_code : Z) (detail : string).

Class AuthHandler := {
  (** [crypt_ctx.hash(password)] *)
  crypt_hash : string → string;
  (** [verify_access_token(token)]: the decoded token, or an
      [HTTPException]. *)
  verify_access_token : string → Result DecodedJWTToken;
  (** [create_access_token(user_id, expiration, refresh)], the expiration
      in minutes. *)
  create_access_token : string → Z → bool → string;
  (** [verify_user_permission(permission, session, token)] *)
  verify_user_permission : string → Session → DecodedJWTToken → bool;
  (** [authenticate_user(username, plaintext_password, login_ip, session,
      background_tasks)]; it may write to the session. *)
  authenticate_user :
    string → string → option string → Session → AuthOutcome * Session
}.

End AuthHandler.

(** ** [centralserver/internals/user_handler.py] *)

Module UserHandler.
Import Models AuthHandler.

(** A [str] is a sequence of code points, and a character is a code
    point.  The text of a request or of a column is held encoded, as a
    [string]; [code_points] decodes it, and the character predicates are
    those of [str] on one character, which Python reads off the Unicode
    character database. *)
Class Unicode := {
  code_points : string → list N;
  isalnum : N → bool;
  isdigit : N → bool;
  islower : N → bool;
  isupper : N → bool
}.

(** [ord(c)] for a character of the ASCII range. *)
Definition ord (c : ascii) : N := N_of_ascii c.

Section Validation.
Context `{Unicode}.

(** [len(s)]: the number of code points. *)
Definition len (s : string) : Z := Z.of_nat (length (code_points s)).

Definition validate_username (username : string) : bool :=
  forallb (λ c, isalnum c || bool_decide (c = ord "_")
                || bool_decide (c = ord "-")) (code_points username)
  && (3 <? len username)
  && (len username <? 22).

Definition validate_password (password : string) : bool :=
  (8 <=? len password)
  && existsb isdigit (code_points password)
  && existsb islower (code_points password)
  && existsb isupper (code_points password).

End Validation.

(** [User(username=..., password=..., roleId=...)]: the other columns take
    their defaults.  [new_id] is the primary key that the new row gets. *)
Definition User_new (new_id username password : string) (roleId : Z)
    : User :=
  {| id := new_id; username := username; password := password;
     roleId := roleId; email := None; nameFirst := None;
     nameMiddle := None; nameLast := None; position := None;
     schoolId := None; otpSecret := None; otpVerified := false;
     otpNonce := None; otpNonceExpires := None; lastLoggedInTime := None;
     lastLoggedInIp := None; oauthLinkedGoogleId := None;
     oauthLinkedMicrosoftId := None; oauthLinkedFacebookId := None |}.

Definition create_user_parameters : list string := ["new_user"; "session"].

Definition create_user `{AuthHandler} `{Unicode} (new_id : string)
    (new_user : UserCreate) (session : Session) : Result User * Session :=
  if truthy (first_User_where_username session (new_username new_user))
  then (raise (HTTPException 409 "Username already exists"), session)
  else if negb (validate_username (new_username new_user))
  then (raise (HTTPException 400 "Invalid username"), session)
  else if negb (validate_password (new_password new_user))
  then (raise (HTTPException 400 "Invalid password format"), session)
  else
    let user := User_new new_id (new_username new_user)
                  (crypt_hash (new_password new_user))
                  (new_roleId new_user) in
    match get_User session new_id with
    | Some _ => (raise IntegrityError, session)
    | None => (mret user, put_User session user)
    end.

Definition update_user_info `{Unicode} (acquired_user updated_user : User)
    (session : Session) : Result User * Session :=
  if truthy (first_User_where_username session (username updated_user))
  then (raise (HTTPException 409 "Username already exists"), session)
  else if negb (validate_username (username updated_user))
  then (raise (HTTPException 400 "Invalid username"), session)
  else
    if bool_decide (id updated_user ≠ id acquired_user)
       && truthy (get_User session (id updated_user))
    then (raise IntegrityError, session)
    else
      (mret updated_user,
       {| users := <[id updated_user := updated_user]>
                     (delete (id acquired_user) (users session));
          roles := roles session |}).

End UserHandler.

(** ** [centralserver/internals/adapters/oauth.py] *)

Module OAuthAdapters.

(** A decoded JSON document, as [response.json()] returns it. *)
Inductive Json :=
| JNull
| JBool (b : bool)
| JNum (z : Z)
| JStr (s : string)
| JArr (items : list Json)
| JObj (fields : list (string * Json)).

(** An HTTP response: the status code and the body, [None] when the body
    is not a JSON document. *)
Record Response := mkResponse {
  status_code : Z;
  body : option Json
}.

(** The network as [httpx] presents it.  A call returns a response
    whatever its status code is, or raises (a timeout, for one).
    [format_value v] is [str(v)], the text that an f-string puts in place
    of [{v}]. *)
Class Httpx := {
  httpx_post : string → list (string * string) → Result Response;
  httpx_get : string → list (string * string) → Result Response;
  format_value : Json → string
}.

(** [response.json()] *)
Definition json (response : Response) : Result Json :=
  match body response with
  | Some document => mret document
  | None => raise JSONDecodeError
  end.

(** The value that a decoded object holds for [key]: the last member of
    that name. *)
Fixpoint last_member (key : string) (fields : list (string * Json))
    : option Json :=
  match fields with
  | [] => None
  | (k, v) :: rest =>
      match last_member key rest with
      | Some w => Some w
      | None => if bool_decide (k = key) then Some v else None
      end
  end.

(** [document.get(key)]: [None] is [JNull]; only objects have [get]. *)
Definition dict_get (document : Json) (key : string) : Result Json :=
  match document with
  | JObj fields => mret (default JNull (last_member key fields))
  | _ => raise (AttributeError "object has no attribute 'get'")
  end.

(** Modelled from the spec: the adapter configuration classes
    ([adapters/config.py]) are not part of the sources at hand; each holds
    the provider's client id, client secret and redirect URI, and the
    Microsoft one a tenant. *)
Record GoogleOAuthAdapterConfig := mkGoogleConfig {
  google_client_id : string;
  google_client_secret : string;
  google_redirect_uri : string
}.

Record FacebookOAuthAdapterConfig := mkFacebookConfig {
  facebook_client_id : string;
  facebook_client_secret : string;
  facebook_redirect_uri : string
}.

Record MicrosoftOAuthAdapterConfig := mkMicrosoftConfig {
  microsoft_client_id : string;
  microsoft_client_secret : string;
  microsoft_redirect_uri : string;
  microsoft_tenant : string
}.

(** [models/oauth.py] *)
Record OAuthConfigs := mkOAuthConfigs {
  google : option GoogleOAuthAdapterConfig;
  microsoft : option MicrosoftOAuthAdapterConfig;
  facebook : option FacebookOAuthAdapterConfig
}.

(** The interface [OAuthAdapter]: its instances are below. *)
Class OAuthAdapter (Config : Type) := {
  get_authorization_url : Config → list (string * string);
  exchange_code_for_token : Config → string → Result Json
}.

Section Adapters.
Context `{Httpx}.

Definition Google_get_authorization_url (config : GoogleOAuthAdapterConfig)
    : list (string * string) :=
  [("url",
    "https://accounts.google.com/o/oauth2/auth?response_type=code&client_id="
    +:+ google_client_id config +:+ "&redirect_uri="
    +:+ google_redirect_uri config
    +:+ "&scope=openid%20profile%20email&access_type=offline")].

Definition Google_exchange_code_for_token
    (config : GoogleOAuthAdapterConfig) (code : string) : Result Json :=
  let token_url := "https://accounts.google.com/o/oauth2/token" in
  let data := [("code", code);
               ("client_id", google_client_id config);
               ("client_secret", google_client_secret config);
               ("redirect_uri", google_redirect_uri config);
               ("grant_type", "authorization_code")] in
  response ← httpx_post token_url data;
  document ← json response;
  access_token ← dict_get document "access_token";
  user_info ← httpx_get "https://www.googleapis.com/oauth2/v1/userinfo"
                 [("Authorization", "Bearer " +:+ format_value access_token)];
  json user_info.

Definition Facebook_get_authorization_url
    (config : FacebookOAuthAdapterConfig) : list (string * string) :=
  [("url",
    "https://www.facebook.com/v21.0/dialog/oauth?client_id="
    +:+ facebook_client_id config +:+ "&redirect_uri="
    +:+ facebook_redirect_uri config +:+ "&scope=email&response_type=code")].

Definition Facebook_exchange_code_for_token
    (config : FacebookOAuthAdapterConfig) (code : string) : Result Json :=
  let token_url := "https://graph.facebook.com/v21.0/oauth/access_token" in
  let data := [("code", code);
               ("client_id", facebook_client_id config);
               ("client_secret", facebook_client_secret config);
               ("redirect_uri", facebook_redirect_uri config)] in
  response ← httpx_post token_url data;
  document ← json response;
  access_token ← dict_get document "access_token";
  user_info ← httpx_get
                 ("https://graph.facebook.com/me?fields=id,name,email&access_token="
                  +:+ format_value access_token) [];
  json user_info.

Definition Microsoft_get_authorization_url
    (config : MicrosoftOAuthAdapterConfig) : list (string * string) :=
  [("url",
    "https://login.microsoftonline.com/" +:+ microsoft_tenant config
    +:+ "/oauth2/v2.0/authorize?client_id=" +:+ microsoft_client_id config
    +:+ "&response_type=code&redirect_uri=" +:+ microsoft_redirect_uri config
    +:+ "&scope=openid%20profile%20email")].

Definition Microsoft_exchange_code_for_token
    (config : MicrosoftOAuthAdapterConfig) (code : string) : Result Json :=
  let token_url := "https://login.microsoftonline.com/"
                   +:+ microsoft_tenant config +:+ "/oauth2/v2.0/token" in
  let data := [("code", code);
               ("client_id", microsoft_client_id config);
               ("client_secret", microsoft_client_secret config);
               ("redirect_uri", microsoft_redirect_uri config);
               ("grant_type", "authorization_code")] in
  response ← httpx_post token_url data;
  document ← json response;
  access_token ← dict_get document "access_token";
  user_info ← httpx_get "https://graph.microsoft.com/v1.0/me"
                 [("Authorization", "Bearer " +:+ format_value access_token)];
  json user_info.

#[global] Instance GoogleOAuthAdapter
    : OAuthAdapter GoogleOAuthAdapterConfig :=
  {| get_authorization_url := Google_get_authorization_url;
     exchange_code_for_token := Google_exchange_code_for_token |}.

#[global] Instance FacebookOAuthAdapter
    : OAuthAdapter FacebookOAuthAdapterConfig :=
  {| get_authorization_url := Facebook_get_authorization_url;
     exchange_code_for_token := Facebook_exchange_code_for_token |}.

#[global] Instance MicrosoftOAuthAdapter
    : OAuthAdapter MicrosoftOAuthAdapterConfig :=
  {| get_authorization_url := Microsoft_get_authorization_url;
     exchange_code_for_token := Microsoft_exchange_code_for_token |}.

(** The closed set of adapters, to state properties of the three at
    once. *)
Inductive Adapter :=
| GoogleAdapter (config : GoogleOAuthAdapterConfig)
| FacebookAdapter (config : FacebookOAuthAdapterConfig)
| MicrosoftAdapter (config : MicrosoftOAuthAdapterConfig).

Definition exchange (adapter : Adapter) (code : string) : Result Json :=
  match adapter with
  | GoogleAdapter config => exchange_code_for_token config code
  | FacebookAdapter config => exchange_code_for_token config code
  | MicrosoftAdapter config => exchange_code_for_token config code
  end.

End Adapters.

End OAuthAdapters.

(** ** The requests of a code exchange

    What the authorization-code flow asks of each provider: the token
    request, a form that carries the code and the credentials of the
    client, and the profile request, which carries the access token, as a
    bearer token for Google and Microsoft and in the query for Facebook.
    The access token is the member [access_token] of the token response,
    [None] when the object has no such member. *)

Module OAuthRequests.
Import OAuthAdapters.

Definition token_url (adapter : Adapter) : string :=
  match adapter with
  | GoogleAdapter _ => "https://accounts.google.com/o/oauth2/token"
  | FacebookAdapter _ =>
      "https://graph.facebook.com/v21.0/oauth/access_token"
  | MicrosoftAdapter config =>
      "https://login.microsoftonline.com/" +:+ microsoft_tenant config
      +:+ "/oauth2/v2.0/token"
  end.

Definition token_data (adapter : Adapter) (code : string)
    : list (string * string) :=
  match adapter with
  | GoogleAdapter config =>
      [("code", code);
       ("client_id", google_client_id config);
       ("client_secret", google_client_secret config);
       ("redirect_uri", google_redirect_uri config);
       ("grant_type", "authorization_code")]
  | FacebookAdapter config =>
      [("code", code);
       ("client_id", facebook_client_id config);
       ("client_secret", facebook_client_secret config);
       ("redirect_uri", facebook_redirect_uri config)]
  | MicrosoftAdapter config =>
      [("code", code);
       ("client_id", microsoft_client_id config);
       ("client_secret", microsoft_client_secret config);
       ("redirect_uri", microsoft_redirect_uri config);
       ("grant_type", "authorization_code")]
  end.

Section Requests.
Context `{Httpx}.

Definition token_request (adapter : Adapter) (code : string)
    : Result Response :=
  httpx_post (token_url adapter) (token_data adapter code).

Definition profile_request (adapter : Adapter)
    (token_fields : list (string * Json)) : Result Response :=
  let access_token :=
    default JNull (last_member "access_token" token_fields) in
  match adapter with
  | GoogleAdapter _ =>
      httpx_get "https://www.googleapis.com/oauth2/v1/userinfo"
        [("Authorization", "Bearer " +:+ format_value access_token)]
  | FacebookAdapter _ =>
      httpx_get
        ("https://graph.facebook.com/me?fields=id,name,email&access_token="
         +:+ format_value access_token) []
  | MicrosoftAdapter _ =>
      httpx_get "https://graph.microsoft.com/v1.0/me"
        [("Authorization", "Bearer " +:+ format_value access_token)]
  end.

End Requests.

End OAuthRequests.

(** ** The process-wide configuration object [app_config]

    The routes read the token lifetimes from
    [app_config.authentication], and besides them the lifetime of an OTP
    nonce and the OAuth provider configurations, which the configuration
    classes above do not hold; they are fields of their own here. *)

Module AppConfig.
Import ConfigHandler OAuthAdapters.

Class AppConfig := {
  authentication : Authentication;
  otp_nonce_expire_minutes : Z;
  oauth : OAuthConfigs
}.

End AppConfig.

(** ** [centralserver/routers/auth_routes/__init__.py]

    A handler receives the database session and returns it with its
    outcome.  What the handlers draw from the environment is an argument:
    [now] is the clock, [fresh_uuid] a [uuid.uuid4()], [new_id] the key of
    a created row, [genpass] the text that [random.choices] draws.
    Mail is sent by background tasks after the response and is not part of
    the outcome. *)

Module AuthRoutes.
Import ConfigHandler Models AuthHandler UserHandler AppConfig.

Inductive LoginResponse :=
| TokenResponse (token : JWTToken)
| OtpChallenge (message otp_nonce : string).

Definition set_otp_nonce (user : User) (nonce : string) (expires : Z)
    : User :=
  {| id := id user; username := username user; password := password user;
     roleId := roleId user; email := email user;
     nameFirst := nameFirst user; nameMiddle := nameMiddle user;
     nameLast := nameLast user; position := position user;
     schoolId := schoolId user; otpSecret := otpSecret user;
     otpVerified := otpVerified user;
     otpNonce := Some nonce; otpNonceExpires := Some expires;
     lastLoggedInTime := lastLoggedInTime user;
     lastLoggedInIp := lastLoggedInIp user;
     oauthLinkedGoogleId := oauthLinkedGoogleId user;
     oauthLinkedMicrosoftId := oauthLinkedMicrosoftId user;
     oauthLinkedFacebookId := oauthLinkedFacebookId user |}.

Definition set_last_logged_in (user : User) (time : Z) (ip : option string)
    : User :=
  {| id := id user; username := username user; password := password user;
     roleId := roleId user; email := email user;
     nameFirst := nameFirst user; nameMiddle := nameMiddle user;
     nameLast := nameLast user; position := position user;
     schoolId := schoolId user; otpSecret := otpSecret user;
     otpVerified := otpVerified user;
     otpNonce := otpNonce user; otpNonceExpires := otpNonceExpires user;
     lastLoggedInTime := Some time;
     lastLoggedInIp := ip;
     oauthLinkedGoogleId := oauthLinkedGoogleId user;
     oauthLinkedMicrosoftId := oauthLinkedMicrosoftId user;
     oauthLinkedFacebookId := oauthLinkedFacebookId user |}.

Section Routes.
Context `{AuthHandler} `{Unicode} `{AppConfig}.

(** [logged_in_dep = Annotated[DecodedJWTToken, Depends(verify_access_token)]]:
    the bearer token of the request goes through [verify_access_token]
    before the handler runs. *)
Definition logged_in_dep (bearer : string) : Result DecodedJWTToken :=
  verify_access_token bearer.

(** The last step is [UserPublic.model_validate(await create_user(new_user,
    session, background_tasks, email_verified=email_verified))]: a call of
    the user handler's [create_user] with three positional arguments and
    one keyword argument, whose result is awaited. *)
Definition create_new_user (new_id : string) (new_user : UserCreate)
    (token : DecodedJWTToken) (session : Session)
    : Result User * Session :=
  if negb (verify_user_permission "users:create" session token)
  then (raise (HTTPException 403
                 "You do not have permission to create a user."), session)
  else
    match get_User session (token_id token) with
    | None => (raise (HTTPException 403 "User not found."), session)
    | Some user =>
        match get_Role session (new_roleId new_user) with
        | None =>
            (raise (HTTPException 400 "Invalid role ID provided."), session)
        | Some user_role =>
            if new_roleId new_user <? roleId user
            then (raise (HTTPException 403
                    "You do not have permission to create a user with this role."),
                  session)
            else
              match bind_arguments "create_user" create_user_parameters
                      3 ["email_verified"] with
              | Raised e => (raise e, session)
              | Returned _ =>
                  let '(created, session) :=
                    create_user new_id new_user session in
                  match created with
                  | Raised e => (raise e, session)
                  | Returned created =>
                      match await_value "User" created with
                      | Raised e => (raise e, session)
                      | Returned nothing => match nothing with end
                      end
                  end
              end
        end
    end.

Definition request_access_token (data_username data_password : string)
    (client_host : option string) (remember_me : bool)
    (now : Z) (fresh_uuid : string) (session : Session)
    : Result LoginResponse * Session :=
  let '(outcome, session) :=
    authenticate_user data_username data_password client_host session in
  match outcome with
  | AuthFailure status detail =>
      (raise (HTTPException status detail), session)
  | AuthUser user =>
      if truthy (otpSecret user) && otpVerified user
      then
        let otp_nonce := fresh_uuid in
        let user := set_otp_nonce user otp_nonce
                      (now + 60 * otp_nonce_expire_minutes) in
        (mret (OtpChallenge
                 "MFA OTP is enabled. Please provide your OTP to continue."
                 otp_nonce),
         put_User session user)
      else
        let user := set_last_logged_in user now client_host in
        let access_token :=
          create_access_token (id user)
            (access_token_expire_minutes authentication) false in
        let refresh_token :=
          if remember_me
          then Some (create_access_token (id user)
                       (refresh_token_expire_minutes authentication) true)
          else None in
        (mret (TokenResponse
                 {| uid := fresh_uuid;
                    access_token := access_token;
                    refresh_token := refresh_token;
                    token_type := "bearer" |}),
         put_User session user)
  end.

(** [try: ... except HTTPException as e: raise HTTPException(401, ...)] *)
Definition except_HTTPException {A} (body : Result A) : Result A :=
  match body with
  | Raised (HTTPException _ _) =>
      raise (HTTPException 401 "Invalid or expired refresh token.")
  | _ => body
  end.

(** The endpoint reads the session and does not write to it. *)
Definition refresh_access_token (refresh_token : string)
    (fresh_uuid : string) (session : Session) : Result JWTToken :=
  except_HTTPException
    (decoded_token ← verify_access_token refresh_token;
     match get_User session (token_id decoded_token) with
     | None => raise (HTTPException 401 "User not found.")
     | Some user =>
         let new_access_token :=
           create_access_token (id user)
             (access_token_expire_minutes authentication) false in
         mret {| uid := fresh_uuid;
                 access_token := new_access_token;
                 refresh_token := Some refresh_token;
                 token_type := "bearer" |}
     end).

(** After the checks the route draws [genpass] and tests it with
    [while not (await validate_password(genpass))[0]]: the call of
    [validate_password] returns a [bool], which is awaited.  The loop body
    and the [try] block that follows are not reached. *)
Definition invite_user (genpass : string) (new_user : UserInvite)
    (token : DecodedJWTToken) (session : Session)
    : Result User * Session :=
  if negb (verify_user_permission "users:create" session token)
  then (raise (HTTPException 403
                 "You do not have permission to invite a user."),
        session)
  else
    match get_User session (token_id token) with
    | None => (raise (HTTPException 403 "User not found."), session)
    | Some user =>
        match get_Role session (inv_roleId new_user) with
        | None =>
            (raise (HTTPException 400 "Invalid role ID provided."), session)
        | Some user_role =>
            if inv_roleId new_user <? roleId user
            then (raise (HTTPException 403
                    "You do not have permission to invite a user with this role."),
                  session)
            else
              match await_value "bool" (validate_password genpass) with
              | Raised e => (raise e, session)
              | Returned nothing => match nothing with end
              end
        end
    end.

End Routes.

End AuthRoutes.

(** ** [centralserver/routers/auth_routes/oauth.py]: the unlink routes *)

Module OAuthRoutes.
Import Models OAuthAdapters AppConfig.

Definition set_oauthLinkedGoogleId (user : User) (v : option string)
    : User :=
  {| id := id user; username := username user; password := password user;
     roleId := roleId user; email := email user;
     nameFirst := nameFirst user; nameMiddle := nameMiddle user;
     nameLast := nameLast user; position := position user;
     schoolId := schoolId user; otpSecret := otpSecret user;
     otpVerified := otpVerified user;
     otpNonce := otpNonce user; otpNonceExpires := otpNonceExpires user;
     lastLoggedInTime := lastLoggedInTime user;
     lastLoggedInIp := lastLoggedInIp user;
     oauthLinkedGoogleId := v;
     oauthLinkedMicrosoftId := oauthLinkedMicrosoftId user;
     oauthLinkedFacebookId := oauthLinkedFacebookId user |}.

Definition set_oauthLinkedMicrosoftId (user : User) (v : option string)
    : User :=
  {| id := id user; username := username user; password := password user;
     roleId := roleId user; email := email user;
     nameFirst := nameFirst user; nameMiddle := nameMiddle user;
     nameLast := nameLast user; position := position user;
     schoolId := schoolId user; otpSecret := otpSecret user;
     otpVerified := otpVerified user;
     otpNonce := otpNonce user; otpNonceExpires := otpNonceExpires user;
     lastLoggedInTime := lastLoggedInTime user;
     lastLoggedInIp := lastLoggedInIp user;
     oauthLinkedGoogleId := oauthLinkedGoogleId user;
     oauthLinkedMicrosoftId := v;
     oauthLinkedFacebookId := oauthLinkedFacebookId user |}.

Definition set_oauthLinkedFacebookId (user : User) (v : option string)
    : User :=
  {| id := id user; username := username user; password := password user;
     roleId := roleId user; email := email user;
     nameFirst := nameFirst user; nameMiddle := nameMiddle user;
     nameLast := nameLast user; position := position user;
     schoolId := schoolId user; otpSecret := otpSecret user;
     otpVerified := otpVerified user;
     otpNonce := otpNonce user; otpNonceExpires := otpNonceExpires user;
     lastLoggedInTime := lastLoggedInTime user;
     lastLoggedInIp := lastLoggedInIp user;
     oauthLinkedGoogleId := oauthLinkedGoogleId user;
     oauthLinkedMicrosoftId := oauthLinkedMicrosoftId user;
     oauthLinkedFacebookId := v |}.

Section Routes.
Context `{AppConfig}.

(** [GoogleOAuthAdapter(cfg) if cfg is not None else None], and the like:
    an adapter is its configuration. *)
Definition google_oauth_adapter : option GoogleOAuthAdapterConfig :=
  google oauth.
Definition facebook_oauth_adapter : option FacebookOAuthAdapterConfig :=
  facebook oauth.
Definition microsoft_oauth_adapter : option MicrosoftOAuthAdapterConfig :=
  microsoft oauth.

Definition oauth_unlink_google (token : DecodedJWTToken)
    (session : Session) : Result (list (string * string)) * Session :=
  match google_oauth_adapter with
  | None =>
      (raise (HTTPException 501 "Google OAuth is not configured."), session)
  | Some _ =>
      match get_User session (token_id token) with
      | None => (raise (HTTPException 404 "User not found."), session)
      | Some user =>
          let user := set_oauthLinkedGoogleId user None in
          (mret [("message", "Google account unlinked successfully.")],
           put_User session user)
      end
  end.

Definition oauth_unlink_microsoft (token : DecodedJWTToken)
    (session : Session) : Result (list (string * string)) * Session :=
  match microsoft_oauth_adapter with
  | None =>
      (raise (HTTPException 501 "Microsoft OAuth is not configured."),
       session)
  | Some _ =>
      match get_User session (token_id token) with
      | None => (raise (HTTPException 404 "User not found."), session)
      | Some user =>
          let user := set_oauthLinkedMicrosoftId user None in
          (mret [("message", "Microsoft account unlinked successfully.")],
           put_User session user)
      end
  end.

Definition oauth_unlink_facebook (token : DecodedJWTToken)
    (session : Session) : Result (list (string * string)) * Session :=
  match facebook_oauth_adapter with
  | None =>
      (raise (HTTPException 501 "Facebook OAuth is not configured."),
       session)
  | Some _ =>
      match get_User session (token_id token) with
      | None => (raise (HTTPException 404 "User not found."), session)
      | Some user =>
          let user := set_oauthLinkedFacebookId user None in
          (mret [("message", "Facebook account unlinked successfully.")],
           put_User session user)
      end
  end.

(** The three providers, to state properties of the three routes at
    once. *)
Inductive Provider := Google | Microsoft | Facebook.

Definition configured (provider : Provider) : bool :=
  match provider with
  | Google => bool_decide (is_Some google_oauth_adapter)
  | Microsoft => bool_decide (is_Some microsoft_oauth_adapter)
  | Facebook => bool_decide (is_Some facebook_oauth_adapter)
  end.

Definition oauth_unlink (provider : Provider)
    : DecodedJWTToken → Session
      → Result (list (string * string)) * Session :=
  match provider with
  | Google => oauth_unlink_google
  | Microsoft => oauth_unlink_microsoft
  | Facebook => oauth_unlink_facebook
  end.

End Routes.

(** The linkage id that a user holds for a provider. *)
Definition linkage_id (provider : Provider) (user : User) : option string :=
  match provider with
  | Google => oauthLinkedGoogleId user
  | Microsoft => oauthLinkedMicrosoftId user
  | Facebook => oauthLinkedFacebookId user
  end.

(** [u'] is [u] but for the linkage id of [provider]. *)
Definition same_but_linkage (provider : Provider) (u u' : User) : Prop :=
  id u' = id u ∧ username u' = username u ∧ password u' = password u
  ∧ roleId u' = roleId u ∧ email u' = email u
  ∧ nameFirst u' = nameFirst u ∧ nameMiddle u' = nameMiddle u
  ∧ nameLast u' = nameLast u ∧ position u' = position u
  ∧ schoolId u' = schoolId u ∧ otpSecret u' = otpSecret u
  ∧ otpVerified u' = otpVerified u ∧ otpNonce u' = otpNonce u
  ∧ otpNonceExpires u' = otpNonceExpires u
  ∧ lastLoggedInTime u' = lastLoggedInTime u
  ∧ lastLoggedInIp u' = lastLoggedInIp u
  ∧ ∀ other, other ≠ provider → linkage_id other u' = linkage_id other u.

End OAuthRoutes.

(** ** A concrete deployment, to run the handlers on *)

Module Scenario.
Import ConfigHandler Models AuthHandler UserHandler OAuthAdapters AppConfig.
Import AuthRoutes OAuthRoutes.

(** Modelled from the spec: the token issuer and verifier of
    [auth_handler.py], which is not part of the sources at hand.  A token
    encodes its kind and its subject; [issue(user_id, ttl, kind)] produces
    it, and verification fails on a malformed token and on a token of the
    wrong kind, a refresh token presented where an access token is
    required.  Neither the clock nor the keys are arguments of the
    verifier: the tokens here are taken within their lifetime and
    correctly signed. *)
Definition issue (user_id : string) (ttl : Z) (refresh : bool) : string :=
  (if refresh then "refresh:" else "access:") +:+ user_id.

Definition decode (token : string) : option DecodedJWTToken :=
  if String.prefix "access:" token
  then Some {| token_id := String.substring 7 (String.length token - 7) token;
               token_kind := AccessKind |}
  else if String.prefix "refresh:" token
  then Some {| token_id := String.substring 8 (String.length token - 8) token;
               token_kind := RefreshKind |}
  else None.

Definition verify_access_only (token : string) : Result DecodedJWTToken :=
  match decode token with
  | None => raise (HTTPException 401 "TokenMalformed")
  | Some claims =>
      match token_kind claims with
      | AccessKind => mret claims
      | RefreshKind => raise (HTTPException 401 "TokenWrongKind")
      end
  end.

(** Modelled from the spec: the permission gate resolves the role of the
    token's user to its permission set and checks membership.  Here the
    roles 1 and 2 hold [users:create]. *)
Definition role_permissions (role : Z) : list string :=
  if bool_decide (role = 1) then ["users:create"; "roles:global:read"]
  else if bool_decide (role = 2) then ["users:create"]
  else [].

Definition has_permission (permission : string) (session : Session)
    (token : DecodedJWTToken) : bool :=
  match get_User session (token_id token) with
  | None => false
  | Some user =>
      bool_decide (permission ∈ role_permissions (roleId user))
  end.

Definition hash (plaintext : string) : string := "$hashed$" +:+ plaintext.

(** The text of the scenarios is Latin-1: the code point of a character is
    its byte, and the predicates are those of [str] on the code points
    below 256. *)
Definition between (lo hi x : N) : bool := ((lo <=? x) && (x <=? hi))%N.

Definition latin1_isupper (x : N) : bool :=
  between 65 90 x || between 192 214 x || between 216 222 x.

Definition latin1_islower (x : N) : bool :=
  (between 97 122 x || (x =? 170) || (x =? 181) || (x =? 186)
   || between 223 246 x || between 248 255 x)%N.

Definition latin1_isdigit (x : N) : bool :=
  (between 48 57 x || (x =? 178) || (x =? 179) || (x =? 185))%N.

Definition latin1_isalnum (x : N) : bool :=
  latin1_isupper x || latin1_islower x || latin1_isdigit x
  || between 188 190 x.

Definition latin1 : Unicode :=
  {| code_points := λ s, ord <$> list_ascii_of_string s;
     isalnum := latin1_isalnum;
     isdigit := latin1_isdigit;
     islower := latin1_islower;
     isupper := latin1_isupper |}.

(** Modelled from the spec: the credential verifier looks the user up by
    name and compares the password with the stored hash; the failure is
    [invalid credentials] in both cases.  Lockout is left out. *)
Definition authenticate (name plaintext : string) (ip : option string)
    (session : Session) : AuthOutcome * Session :=
  match first_User_where_username session name with
  | None => (AuthFailure 401 "Invalid credentials", session)
  | Some user =>
      if bool_decide (password user = hash plaintext)
      then (AuthUser user, session)
      else (AuthFailure 401 "Invalid credentials", session)
  end.

(** Modelled from the spec: [verify(token) -> Claims | Error], the
    verification that returns the subject and the kind of the token. *)
Definition verify_any_kind (token : string) : Result DecodedJWTToken :=
  match decode token with
  | None => raise (HTTPException 401 "TokenMalformed")
  | Some claims => mret claims
  end.

(** The handler whose [verify_access_token] is the access-only check. *)
Definition auth_handler : AuthHandler :=
  {| crypt_hash := hash;
     verify_access_token := verify_access_only;
     create_access_token := issue;
     verify_user_permission := has_permission;
     authenticate_user := authenticate |}.

(** The handler whose [verify_access_token] returns the claims of a token
    of either kind. *)
Definition lenient_handler : AuthHandler :=
  {| crypt_hash := hash;
     verify_access_token := verify_any_kind;
     create_access_token := issue;
     verify_user_permission := has_permission;
     authenticate_user := authenticate |}.

Definition google_config : GoogleOAuthAdapterConfig :=
  {| google_client_id := "client";
     google_client_secret := "secret";
     google_redirect_uri := "https://scars.example/callback" |}.

Definition facebook_config : FacebookOAuthAdapterConfig :=
  {| facebook_client_id := "client";
     facebook_client_secret := "secret";
     facebook_redirect_uri := "https://scars.example/callback" |}.

Definition authentication_config : Authentication :=
  {| signing_secret_key := TestConfigHandler.VALID_SIGNING_KEY;
     refresh_signing_secret_key :=
       TestConfigHandler.VALID_REFRESH_SIGNING_KEY;
     encryption_secret_key := TestConfigHandler.VALID_ENCRYPTION_KEY;
     signing_algorithm := "HS256";
     encryption_algorithm := "A256GCM";
     auth_encoding := "utf-8";
     access_token_expire_minutes := 30;
     refresh_token_expire_minutes := 10080 |}.

(** Google is configured; Microsoft and Facebook are not. *)
Definition app_config : AppConfig :=
  {| authentication := authentication_config;
     otp_nonce_expire_minutes := 5;
     oauth := {| google := Some google_config;
                 microsoft := None;
                 facebook := None |} |}.

Definition superintendent : User :=
  User_new "u1" "scars" (hash "Passw0rd") 1.

Definition principal : User :=
  OAuthRoutes.set_oauthLinkedFacebookId
    (OAuthRoutes.set_oauthLinkedGoogleId
       (User_new "u2" "principal" (hash "Secr3tPass") 2)
       (Some "google-1234"))
    (Some "facebook-5678").

Definition canteen_manager : User :=
  User_new "u3" "canteen" (hash "Lunch4All") 3.

Definition session0 : Session :=
  {| users := {[ "u1" := superintendent; "u2" := principal;
                 "u3" := canteen_manager ]};
     roles := {[ 1 := mkRole 1 "Superintendent" false;
                 2 := mkRole 2 "Principal" true;
                 3 := mkRole 3 "Canteen Manager" true ]} |}.

Definition token_of (user_id : string) : DecodedJWTToken :=
  {| token_id := user_id; token_kind := AccessKind |}.

Definition new_user_request (name : string) (role : Z) : UserCreate :=
  {| new_username := name; new_roleId := role;
     new_password := "Passw0rd1"; new_email := None;
     new_nameFirst := None; new_nameMiddle := None; new_nameLast := None;
     new_position := None; new_schoolId := None |}.

Definition invite_request (name : string) (role : Z) : UserInvite :=
  {| inv_username := name; inv_roleId := role;
     inv_email := Some "someone@scars.example";
     inv_nameFirst := None; inv_nameMiddle := None; inv_nameLast := None;
     inv_position := None; inv_schoolId := None |}.

(** [str(v)] for the scalars among the decoded values. *)
Definition str_scalar (v : Json) : string :=
  match v with
  | JNull => "None"
  | JBool true => "True"
  | JBool false => "False"
  | JStr s => s
  | _ => "<value>"
  end.

(** A provider that does not answer in time. *)
Definition timing_out : Httpx :=
  {| httpx_post := λ _ _, raise TimeoutException;
     httpx_get := λ _ _, raise TimeoutException;
     format_value := str_scalar |}.

(** A provider that refuses the code with a 400 and the profile request
    with a 401, each with a JSON error document. *)
Definition invalid_grant : Json :=
  JObj [("error", JStr "invalid_grant")].
Definition invalid_credentials : Json :=
  JObj [("error", JObj [("code", JNum 401); ("status", JStr "UNAUTHENTICATED")])].

Definition refusing : Httpx :=
  {| httpx_post := λ _ _, mret {| status_code := 400;
                                  body := Some invalid_grant |};
     httpx_get := λ _ _, mret {| status_code := 401;
                                 body := Some invalid_credentials |};
     format_value := str_scalar |}.

(** A provider whose error page is not JSON. *)
Definition unavailable : Httpx :=
  {| httpx_post := λ _ _, mret {| status_code := 503; body := None |};
     httpx_get := λ _ _, mret {| status_code := 503; body := None |};
     format_value := str_scalar |}.

(** Google as it answers the client of [google_config]: a token for the
    code [4/0AX4XfWh] sent with the credentials of the client, the profile
    for that token, a 404 page for a request to another address and a 401
    for one without the token. *)
Definition google_profile : Json :=
  JObj [("id", JStr "google-1234");
        ("email", JStr "principal@scars.example")].

Definition answering : Httpx :=
  {| httpx_post := λ url data,
       if bool_decide (url = "https://accounts.google.com/o/oauth2/token")
       then
         if bool_decide (data = [("code", "4/0AX4XfWh");
                                 ("client_id", "client");
                                 ("client_secret", "secret");
                                 ("redirect_uri",
                                  "https://scars.example/callback");
                                 ("grant_type", "authorization_code")])
         then mret {| status_code := 200;
                      body := Some (JObj [("access_token",
                                           JStr "ya29.a0Af")]) |}
         else mret {| status_code := 400; body := Some invalid_grant |}
       else mret {| status_code := 404; body := None |};
     httpx_get := λ url headers,
       if bool_decide (url = "https://www.googleapis.com/oauth2/v1/userinfo")
       then
         if bool_decide (headers = [("Authorization", "Bearer ya29.a0Af")])
         then mret {| status_code := 200; body := Some google_profile |}
         else mret {| status_code := 401;
                      body := Some invalid_credentials |}
       else mret {| status_code := 404; body := None |};
     format_value := str_scalar |}.

End Scenario.

(** ** [centralserver/internals/config_handler.py]: the database URIs,
    [AppConfig] and [read_config_file] *)

Module ConfigFile.
Import ConfigHandler OAuthAdapters.

(** [Database.sqlalchemy_uri]; [pretty] is [str] on an [int]. *)
Definition Database_sqlalchemy_uri (self : Database) : string :=
  db_type self +:+ "+" +:+ db_driver self +:+ "://" +:+ db_username self
  +:+ ":" +:+ db_password self +:+ "@" +:+ host self +:+ ":"
  +:+ pretty (port self) +:+ "/" +:+ database self.


(** [bool(v)] for a decoded value: [None], [False], [0], the empty string,
    the empty list and the empty object are falsy. *)
#[global] Instance Json_truthy : Truthy Json := λ value,
  match value with
  | JNull => false
  | JBool b => b
  | JNum z => truthy z
  | JStr s => truthy s
  | JArr items => truthy items
  | JObj fields => truthy fields
  end.

(** [value or fallback] *)
Definition value_or (value fallback : Json) : Json :=
  if truthy value then value else fallback.

(** [value is None] *)
Definition is_None (value : Json) : bool :=
  match value with JNull => true | _ => false end.

(** [config.get(key, {})]: only an object has [get]. *)
Definition get_section (config : Json) (key : string) : Result Json :=
  match config with
  | JObj fields => mret (default (JObj []) (last_member key fields))
  | _ => raise (AttributeError "object has no attribute 'get'")
  end.

(** The annotations of the configuration classes are not checked when the
    program runs: a constructor takes the value that it is given, whatever
    its type, tests it with [or] or with [is None], and stores it.
    [read_config_file] hands the constructors the values of the decoded
    document; these are the classes at such values, [None] being
    [JNull]. *)
Module Untyped.

Record Debug := mkDebug {
  enabled : Json;
  use_test_db : Json
}.

Definition Debug_init (enabled use_test_db : Json) : Debug :=
  {| enabled := value_or enabled (JBool false);
     use_test_db := value_or use_test_db (JBool false) |}.

Record Logging := mkLogging {
  filepath : Json;
  max_bytes : Json;
  backup_count : Json;
  log_encoding : Json;
  log_format : Json;
  date_format : Json
}.

Definition Logging_init (cwd : string)
    (filepath max_bytes backup_count encoding log_format date_format : Json)
    : Logging :=
  {| filepath :=
       value_or filepath
         (JStr (path_join cwd ["logs"; "centralserver-{0}.log"]));
     max_bytes := value_or max_bytes (JNum 10485760);
     backup_count := value_or backup_count (JNum 5);
     log_encoding := value_or encoding (JStr "utf-8");
     log_format :=
       value_or log_format
         (JStr "%(asctime)s:%(name)s:%(levelname)s:%(message)s");
     date_format := value_or date_format (JStr "%d-%m-%y_%H-%M-%S") |}.

Record Database := mkDatabase {
  db_type : Json;
  db_driver : Json;
  db_username : Json;
  db_password : Json;
  host : Json;
  port : Json;
  database : Json
}.

Definition Database_init
    (db_type db_driver username password host port database : Json)
    : Database :=
  {| db_type := value_or db_type (JStr "mysql");
     db_driver := value_or db_driver (JStr "pymysql");
     db_username := value_or username (JStr "root");
     db_password := value_or password (JStr "");
     host := value_or host (JStr "localhost");
     port := value_or port (JNum 3306);
     database := value_or database (JStr "projectscars") |}.

Record TestDatabase := mkTestDatabase {
  test_filepath : Json
}.

Definition TestDatabase_init (cwd : string) (filepath : Json)
    : TestDatabase :=
  {| test_filepath :=
       value_or filepath
         (JStr (path_join cwd ["tests"; "data"; "test.db"])) |}.

Record Authentication := mkAuthentication {
  signing_secret_key : Json;
  refresh_signing_secret_key : Json;
  encryption_secret_key : Json;
  signing_algorithm : Json;
  encryption_algorithm : Json;
  auth_encoding : Json;
  access_token_expire_minutes : Json;
  refresh_token_expire_minutes : Json
}.

Definition Authentication_init
    (signing_secret_key refresh_signing_secret_key encryption_secret_key
     signing_algorithm encryption_algorithm encoding
     access_token_expire_minutes refresh_token_expire_minutes : Json)
    : Result Authentication :=
  if is_None signing_secret_key
     || is_None refresh_signing_secret_key
     || is_None encryption_secret_key
  then raise (ValueError
         "Signing or encryption secret key is empty in configuration file.")
  else
    mret {| signing_secret_key := signing_secret_key;
           refresh_signing_secret_key := refresh_signing_secret_key;
           encryption_secret_key := encryption_secret_key;
           signing_algorithm := value_or signing_algorithm (JStr "HS256");
           encryption_algorithm :=
             value_or encryption_algorithm (JStr "A256GCM");
           auth_encoding := value_or encoding (JStr "utf-8");
           access_token_expire_minutes :=
             value_or access_token_expire_minutes (JNum 30);
           refresh_token_expire_minutes :=
             value_or refresh_token_expire_minutes (JNum 10080) |}.

Record Security := mkSecurity {
  allow_origins : Json;
  allow_credentials : Json;
  allow_methods : Json;
  allow_headers : Json
}.

Definition Security_init
    (allow_origins allow_credentials allow_methods allow_headers : Json)
    : Security :=
  {| allow_origins := value_or allow_origins (JArr [JStr "*"]);
     allow_credentials := value_or allow_credentials (JBool true);
     allow_methods := value_or allow_methods (JArr [JStr "*"]);
     allow_headers := value_or allow_headers (JArr [JStr "*"]) |}.

(** The class [AppConfig]. *)
Record AppConfig := mkAppConfig {
  cfg_debug : Debug;
  cfg_logging : Logging;
  cfg_database : Database;
  cfg_test_database : TestDatabase;
  cfg_authentication : Authentication;
  cfg_security : Security
}.

(** [AppConfig.__init__]: a section is an object, which is truthy, or
    [None]; an omitted section is built with no arguments,
    [Authentication()] among them. *)
Definition AppConfig_init (cwd : string)
    (debug : option Debug) (logging : option Logging)
    (database : option Database) (test_database : option TestDatabase)
    (authentication : option Authentication) (security : option Security)
    : Result AppConfig :=
  let debug := default (Debug_init JNull JNull) debug in
  let logging :=
    default (Logging_init cwd JNull JNull JNull JNull JNull JNull) logging in
  let database :=
    default (Database_init JNull JNull JNull JNull JNull JNull JNull)
      database in
  let test_database :=
    default (TestDatabase_init cwd JNull) test_database in
  authentication ←
    match authentication with
    | Some authentication => mret authentication
    | None =>
        Authentication_init JNull JNull JNull JNull JNull JNull JNull JNull
    end;
  let security :=
    default (Security_init JNull JNull JNull JNull) security in
  mret {| cfg_debug := debug; cfg_logging := logging;
          cfg_database := database; cfg_test_database := test_database;
          cfg_authentication := authentication;
          cfg_security := security |}.

(** [read_config_file] from the decoded document on; [section.get(key,
    None)] is [dict_get]. *)
Definition read_config_file (cwd : string) (config : Json)
    : Result AppConfig :=
  debug_config ← get_section config "debug";
  logging_config ← get_section config "logging";
  database_config ← get_section config "database";
  test_database_config ← get_section config "test_database";
  authentication_config ← get_section config "authentication";
  security_config ← get_section config "security";
  (* debug=Debug(...) *)
  enabled ← dict_get debug_config "enabled";
  use_test_db ← dict_get debug_config "use_test_db";
  let debug := Debug_init enabled use_test_db in
  (* logging=Logging(...) *)
  filepath ← dict_get logging_config "filepath";
  max_bytes ← dict_get logging_config "max_bytes";
  backup_count ← dict_get logging_config "backup_count";
  encoding ← dict_get logging_config "encoding";
  log_format ← dict_get logging_config "log_format";
  date_format ← dict_get logging_config "date_format";
  let logging := Logging_init cwd filepath max_bytes backup_count encoding
                   log_format date_format in
  (* database=Database(...) *)
  db_type ← dict_get database_config "db_type";
  db_driver ← dict_get database_config "db_driver";
  username ← dict_get database_config "username";
  password ← dict_get database_config "password";
  host ← dict_get database_config "host";
  port ← dict_get database_config "port";
  database ← dict_get database_config "database";
  let database := Database_init db_type db_driver username password host
                    port database in
  (* test_database=TestDatabase(...) *)
  test_filepath ← dict_get test_database_config "filepath";
  let test_database := TestDatabase_init cwd test_filepath in
  (* authentication=Authentication(...) *)
  signing_secret_key ← dict_get authentication_config "signing_secret_key";
  refresh_signing_secret_key ←
    dict_get authentication_config "refresh_signing_secret_key";
  encryption_secret_key ←
    dict_get authentication_config "encryption_secret_key";
  signing_algorithm ← dict_get authentication_config "signing_algorithm";
  encryption_algorithm ←
    dict_get authentication_config "encryption_algorithm";
  auth_encoding ← dict_get authentication_config "encoding";
  access_token_expire_minutes ←
    dict_get authentication_config "access_token_expire_minutes";
  refresh_token_expire_minutes ←
    dict_get authentication_config "refresh_token_expire_minutes";
  authentication ←
    Authentication_init signing_secret_key refresh_signing_secret_key
      encryption_secret_key signing_algorithm encryption_algorithm
      auth_encoding access_token_expire_minutes
      refresh_token_expire_minutes;
  (* security=Security(...) *)
  allow_origins ← dict_get security_config "allow_origins";
  allow_credentials ← dict_get security_config "allow_credentials";
  allow_methods ← dict_get security_config "allow_methods";
  allow_headers ← dict_get security_config "allow_headers";
  let security := Security_init allow_origins allow_credentials
                    allow_methods allow_headers in
  AppConfig_init cwd (Some debug) (Some logging) (Some database)
    (Some test_database) (Some authentication) (Some security).

End Untyped.

(** The values of the annotated types among the decoded values: an
    optional [bool], [int], [str] or list of [str]. *)
Definition of_bool (x : option bool) : Json := from_option JBool JNull x.
Definition of_int (x : option Z) : Json := from_option JNum JNull x.
Definition of_str (x : option string) : Json := from_option JStr JNull x.
Definition of_strs (x : option (list string)) : Json :=
  from_option (λ items, JArr (JStr <$> items)) JNull x.

(** A security and an authentication configuration of the annotated
    types, as objects that hold decoded values. *)
Definition Security_values (self : Security) : Untyped.Security :=
  {| Untyped.allow_origins := of_strs (Some (allow_origins self));
     Untyped.allow_credentials := of_bool (Some (allow_credentials self));
     Untyped.allow_methods := of_strs (Some (allow_methods self));
     Untyped.allow_headers := of_strs (Some (allow_headers self)) |}.

Definition Authentication_values (self : Authentication)
    : Untyped.Authentication :=
  {| Untyped.signing_secret_key := of_str (Some (signing_secret_key self));
     Untyped.refresh_signing_secret_key :=
       of_str (Some (refresh_signing_secret_key self));
     Untyped.encryption_secret_key :=
       of_str (Some (encryption_secret_key self));
     Untyped.signing_algorithm := of_str (Some (signing_algorithm self));
     Untyped.encryption_algorithm :=
       of_str (Some (encryption_algorithm self));
     Untyped.auth_encoding := of_str (Some (auth_encoding self));
     Untyped.access_token_expire_minutes :=
       of_int (Some (access_token_expire_minutes self));
     Untyped.refresh_token_expire_minutes :=
       of_int (Some (refresh_token_expire_minutes self)) |}.

End ConfigFile.

(** ** [centralserver/internals/db_handler.py] *)

Module DbHandler.
Import Models AuthHandler UserHandler.

(** The constants that [populate_db] reads from [centralserver.info] and
    [centralserver.internals.permissions]; the modules are not part of the
    sources at hand.  Of a default role the id, the description and the
    modifiable flag are read. *)
Class Defaults := {
  DEFAULT_ROLES : list Role;
  default_user : string;
  default_password : string
}.

(** [session.exec(select(Role)).all()] and
    [session.exec(select(User)).first()]. *)
Definition all_Role (session : Session) : list Role :=
  (map_to_list (roles session)).*2.
Definition first_User (session : Session) : option User :=
  head ((map_to_list (users session)).*2).

Definition put_Role (session : Session) (role : Role) : Session :=
  {| users := users session;
     roles := <[role_id role := role]> (roles session) |}.

(** [session.add_all(new_roles); session.commit()]: a primary key that is
    in use makes the commit fail. *)
Fixpoint add_all_Role (session : Session) (new_roles : list Role)
    : Result Session :=
  match new_roles with
  | [] => mret session
  | role :: rest =>
      match get_Role session (role_id role) with
      | Some _ => raise IntegrityError
      | None => add_all_Role (put_Role session role) rest
      end
  end.

Definition default_user_request `{Defaults} : UserCreate :=
  {| new_username := default_user; new_roleId := 1;
     new_password := default_password; new_email := None;
     new_nameFirst := None; new_nameMiddle := None; new_nameLast := None;
     new_position := None; new_schoolId := None |}.

(** [populate_db]; the two sessions that it opens are sessions on the one
    database.  The default user is created by [await create_user(
    UserCreate(...), session)]: the call fits the signature of
    [create_user], which runs and commits the row, and the [User] that it
    returns is awaited. *)
Definition populate_db `{AuthHandler} `{Unicode} `{Defaults}
    (new_id : string) (session : Session) : Result bool * Session :=
  let populated := false in
  let roles_step :=
    if negb (truthy (all_Role session))
    then
      session ← add_all_Role session
                   ((λ role, {| role_id := role_id role;
                                description := description role;
                                modifiable := modifiable role |})
                    <$> DEFAULT_ROLES);
      mret (session, true)
    else mret (session, populated) in
  match roles_step with
  | Raised e => (Raised e, session)
  | Returned (session, populated) =>
      if negb (truthy (first_User session))
      then
        match create_user new_id default_user_request session with
        | (Raised e, session) => (Raised e, session)
        | (Returned created, session) =>
            match await_value "User" created with
            | Raised e => (Raised e, session)
            | Returned nothing => match nothing with end
            end
        end
      else (mret populated, session)
  end.

End DbHandler.

(** ** [centralserver/internals/logger.py]: [LoggerFactory] *)

Module Logger.
Import ConfigHandler.

(** A log level as [LoggerFactory] may be given it: an [int], a [str], or
    a value of another type. *)
Inductive LogLevel :=
| IntLevel (level : Z)
| StrLevel (name : string)
| OtherLevel.

Inductive Handler :=
| StreamHandler (fmt datefmt : string)
| FileHandler (path : string) (maxBytes backupCount : Z)
    (encoding fmt datefmt : string).

(** A logger of the [logging] module: its level and its handlers. *)
Record LoggerObject := mkLoggerObject {
  level : Z;
  handlers : list Handler
}.

(** What the handler asks of the libraries.  [check_level name] is what
    [Logger.setLevel(name.upper())] makes of a level name: the level, or
    the [ValueError] for an unknown one.  [open_log_file template time] is
    the file that [ConcurrentRotatingFileHandler] opens for
    [template.format(time)], or the exception of either. *)
Class LoggingLibrary := {
  check_level : string → Result Z;
  open_log_file : string → string → Result string
}.

Record LoggerFactory := mkLoggerFactory {
  log_level : LogLevel
}.

(** [LoggerFactory.__init__] *)
Definition LoggerFactory_init (debug : Debug) (log_level : option LogLevel)
    : LoggerFactory :=
  {| log_level :=
       match log_level with
       | Some log_level => log_level
       | None => StrLevel (if enabled debug then "DEBUG" else "WARN")
       end |}.

Definition NOTSET : Z := 0.
Definition WARNING : Z := 30.

(** [logging.getLogger(name)]: the logger registered under the name, the
    root logger for the empty name and for its own name.  The registry
    holds the loggers that have been asked for or set up.  A logger that
    is not in it is as the library makes it: the root logger, which is
    there from the start, at [WARNING] without handlers, and any other, new,
    at [NOTSET] without handlers. *)
Definition logger_key (name : string) : string :=
  if truthy name then name else "root".

Definition getLogger (name : string) (registry : gmap string LoggerObject)
    : LoggerObject * gmap string LoggerObject :=
  match registry !! logger_key name with
  | Some logger => (logger, registry)
  | None =>
      let logger :=
        {| level := if bool_decide (logger_key name = "root")
                    then WARNING else NOTSET;
           handlers := [] |} in
      (logger, <[logger_key name := logger]> registry)
  end.

(** [LoggerFactory.get_logger]; [time] is
    [strftime("%Y-%m-%d_%H-%M-%S")]. *)
Definition get_logger `{LoggingLibrary} (logging : Logging)
    (self : LoggerFactory) (name : string) (time : string)
    (registry : gmap string LoggerObject)
    : Result LoggerObject * gmap string LoggerObject :=
  let '(logger, registry) := getLogger name registry in
  let new_level :=
    match log_level self with
    | IntLevel level => mret level
    | StrLevel level_name => check_level level_name
    | OtherLevel =>
        raise (ValueError "Invalid log level type. Must be int or str.")
    end in
  match new_level with
  | Raised e => (Raised e, registry)
  | Returned new_level =>
      let logger := {| level := new_level; handlers := handlers logger |} in
      let registry := <[logger_key name := logger]> registry in
      if negb (truthy (handlers logger))
      then
        match open_log_file (filepath logging) time with
        | Raised e => (Raised e, registry)
        | Returned path =>
            let stream_handler :=
              StreamHandler (log_format logging) (date_format logging) in
            let file_handler :=
              FileHandler path (max_bytes logging) (backup_count logging)
                (log_encoding logging) (log_format logging)
                (date_format logging) in
            let logger :=
              {| level := new_level;
                 handlers := handlers logger
                             ++ [stream_handler; file_handler] |} in
            (mret logger, <[logger_key name := logger]> registry)
        end
      else (mret logger, registry)
  end.

End Logger.

(** ** [centralserver/routers/auth_routes/__init__.py]:
    [resend_user_invitation] *)

Module AuthRoutesRest.
Import ConfigHandler Models AuthHandler UserHandler AppConfig AuthRoutes.

Section Routes.
Context `{AuthHandler} `{Unicode} `{AppConfig}.


End Routes.

End AuthRoutesRest.

(** ** The level that a logger factory asks for *)

Module LoggerLevels.
Import Logger.

(** [self] asks for [level]: its level is that [int], or a name that the
    library knows as that level. *)
Definition asks_for `{LoggingLibrary} (self : LoggerFactory) (level : Z)
    : Prop :=
  log_level self = IntLevel level
  ∨ ∃ name, log_level self = StrLevel name
            ∧ check_level name = Returned level.

End LoggerLevels.

(** ** The row that an unlink route writes *)

Module Unlinked.
Import Models OAuthRoutes.

(** [user] with the linkage id of [provider] set to [None]. *)
Definition unlinked (provider : Provider) (user : User) : User :=
  match provider with
  | Google => set_oauthLinkedGoogleId user None
  | Microsoft => set_oauthLinkedMicrosoftId user None
  | Facebook => set_oauthLinkedFacebookId user None
  end.

End Unlinked.

(** ** Invariants of the user table *)

Module Invariants.
Import Models.

(** No two rows hold the same username. *)
Definition unique_usernames (session : Session) : Prop :=
  ∀ key1 key2 u1 u2,
    users session !! key1 = Some u1 → users session !! key2 = Some u2 →
    username u1 = username u2 → key1 = key2.

End Invariants.

(** ** More of the concrete deployment *)

Module ScenarioRest.
Import ConfigHandler Models AuthHandler UserHandler OAuthAdapters.
Import DbHandler Logger Scenario.

Definition empty_session : Session := {| users := ∅; roles := ∅ |}.

Definition defaults : Defaults :=
  {| DEFAULT_ROLES := [mkRole 1 "Superintendent" false;
                       mkRole 2 "Principal" true;
                       mkRole 3 "Canteen Manager" true];
     default_user := "scars";
     default_password := "Passw0rd" |}.

(** Defaults whose user name is too short for [validate_username]. *)
Definition short_name_defaults : Defaults :=
  {| DEFAULT_ROLES := [mkRole 1 "Superintendent" false];
     default_user := "su";
     default_password := "Passw0rd" |}.

(** An invited user: an email address, no login yet. *)
Definition invited : User :=
  {| id := "u4"; username := "invited"; password := hash "Abcdefghijk1";
     roleId := 3; email := Some "invited@scars.example";
     nameFirst := None; nameMiddle := None; nameLast := None;
     position := None; schoolId := None; otpSecret := None;
     otpVerified := false; otpNonce := None; otpNonceExpires := None;
     lastLoggedInTime := None; lastLoggedInIp := None;
     oauthLinkedGoogleId := None; oauthLinkedMicrosoftId := None;
     oauthLinkedFacebookId := None |}.

(** A user with a verified OTP secret. *)
Definition with_otp : User :=
  {| id := "u5"; username := "careful"; password := hash "S3curePass";
     roleId := 2; email := None;
     nameFirst := None; nameMiddle := None; nameLast := None;
     position := None; schoolId := None; otpSecret := Some "JBSWY3DPEHPK3PXP";
     otpVerified := true; otpNonce := None; otpNonceExpires := None;
     lastLoggedInTime := None; lastLoggedInIp := None;
     oauthLinkedGoogleId := None; oauthLinkedMicrosoftId := None;
     oauthLinkedFacebookId := None |}.

Definition session1 : Session :=
  put_User (put_User session0 invited) with_otp.


(** The level names of [logging], for names in upper or lower ASCII. *)
Definition ascii_upper (c : ascii) : ascii :=
  if between 97 122 (ord c) then ascii_of_nat (nat_of_ascii c - 32) else c.

Definition upper (s : string) : string :=
  string_of_list_ascii (ascii_upper <$> list_ascii_of_string s).

Definition level_of_name (name : string) : Result Z :=
  let name := upper name in
  if bool_decide (name = "CRITICAL") then mret 50
  else if bool_decide (name = "FATAL") then mret 50
  else if bool_decide (name = "ERROR") then mret 40
  else if bool_decide (name = "WARN") then mret 30
  else if bool_decide (name = "WARNING") then mret 30
  else if bool_decide (name = "INFO") then mret 20
  else if bool_decide (name = "DEBUG") then mret 10
  else if bool_decide (name = "NOTSET") then mret 0
  else raise (ValueError "Unknown level").

(** A library under which the log file opens, for a path template
    without replacement fields. *)
Definition logging_library : LoggingLibrary :=
  {| check_level := level_of_name;
     open_log_file := λ template time, mret template |}.

(** A library under which the log file cannot be opened. *)
Definition read_only_library : LoggingLibrary :=
  {| check_level := level_of_name;
     open_log_file := λ template time,
       raise (ValueError "cannot open the log file") |}.

Definition logging_config : Logging :=
  Logging_init "/srv/scars" (Some "/var/log/scars.log") None None None None
    None.

(** A configuration file with the three keys and
    [allow_credentials: false]. *)
Definition config_document : Json :=
  JObj [("debug", JObj [("enabled", JBool true)]);
        ("authentication",
         JObj [("signing_secret_key",
                JStr TestConfigHandler.VALID_SIGNING_KEY);
               ("refresh_signing_secret_key",
                JStr TestConfigHandler.VALID_REFRESH_SIGNING_KEY);
               ("encryption_secret_key",
                JStr TestConfigHandler.VALID_ENCRYPTION_KEY)]);
        ("security", JObj [("allow_credentials", JBool false)])].

(** A configuration file whose values are not of the annotated types: a
    number, an empty string and a list for the keys, and
    [allow_credentials: "no"]. *)
Definition odd_document : Json :=
  JObj [("authentication",
         JObj [("signing_secret_key", JNum 0);
               ("refresh_signing_secret_key", JStr "");
               ("encryption_secret_key", JArr [])]);
        ("security", JObj [("allow_credentials", JStr "no")])].

End ScenarioRest.

(** * Properties *)

Import ConfigHandler Models AuthHandler UserHandler OAuthAdapters AppConfig.
Import OAuthRequests AuthRoutes OAuthRoutes.

(** ** Configuration *)

Section ConfigProperties.

Lemma py_or_falsy_to_None {A} `{Truthy A} (x : option A) (d : A) :
  py_or (falsy_to_None x) d = py_or x d.
Proof.
  destruct x as [v|]; simpl; [|reflexivity].
  destruct (truthy v) eqn:Hv; simpl; rewrite ?Hv; reflexivity.
Qed.

Lemma py_or_falsy {A} `{Truthy A} (v d : A) :
  truthy v = false → py_or (Some v) d = d.
Proof. intros Hv. unfold py_or. rewrite Hv. reflexivity. Qed.

Lemma py_or_bool_True (b : option bool) : py_or b true = true.
Proof. destruct b as [[]|]; reflexivity. Qed.

(** A key that is [None] makes the constructor raise [ValueError]. *)
Lemma Authentication_init_None sk rk ek sa ea enc am rm :
  sk = None ∨ rk = None ∨ ek = None →
  Authentication_init sk rk ek sa ea enc am rm =
    Raised (ValueError
      "Signing or encryption secret key is empty in configuration file.").
Proof.
  destruct sk, rk, ek; intros Hnone; try reflexivity.
  destruct Hnone as [? | [? | ?]]; discriminate.
Qed.

(** The tests that pass [None] for a key, and the test with three valid
    keys, pass. *)
Lemma tests_passing :
  TestConfigHandler.test_config_authentication_signing_key_none
    = Returned tt
  ∧ TestConfigHandler.test_config_authentication_refresh_signing_key_none
    = Returned tt
  ∧ TestConfigHandler.test_config_authentication_encryption_key_none
    = Returned tt
  ∧ TestConfigHandler.test_config_authentication_all_keys_valid
    = Returned tt.
Proof. repeat split. Qed.

(** C1.  The constructor of the authentication configuration checks that
    the three keys are present and nothing else: three keys that are not
    [None] are accepted whatever they hold, the empty string, the
    placeholder [UPDATE_THIS_VALUE], a key of the wrong length or a signing
    key equal to the encryption key.  The tests of the repository that
    expect [ValueError] for a placeholder key and for a key of the wrong
    length end in [AssertionError]. *)
Theorem Authentication_init_accepts_unchecked_keys :
  (∀ sk rk ek sa ea enc am rm,
     returns (Authentication_init (Some sk) (Some rk) (Some ek)
                sa ea enc am rm) = true)
  ∧ returns (TestConfigHandler.Authentication_keys
               (Some TestConfigHandler.DEFAULT_VALUE)
               (Some TestConfigHandler.VALID_REFRESH_SIGNING_KEY)
               (Some TestConfigHandler.VALID_ENCRYPTION_KEY)) = true
  ∧ returns (TestConfigHandler.Authentication_keys
               (Some "") (Some "") (Some "")) = true
  ∧ TestConfigHandler.test_config_authentication_all_keys_unpopulated
    = Raised (AssertionError
                "Expected ValueError, but no exception was raised.")
  ∧ TestConfigHandler.test_config_authentication_signing_key_unpopulated
    = Raised (AssertionError
                "Expected ValueError, but no exception was raised.")
  ∧ TestConfigHandler.test_config_authentication_signing_key_invalid
    = Raised (AssertionError
                "Expected ValueError, but no exception was raised.").
Proof. repeat split. Qed.

(** C10.  Whatever is passed for [allow_credentials], [True], [False] or
    nothing, the security configuration holds [allow_credentials = True];
    and in each of the configuration constructors an argument that is
    falsy ([False], [0], the empty string, the empty list) has the effect
    of an omitted one: the field takes its default. *)
Theorem Security_allow_credentials_always_True :
  (∀ ao b am ah, allow_credentials (Security_init ao b am ah) = true)
  ∧ (∀ ao b am ah,
       Security_init ao b am ah =
       Security_init (falsy_to_None ao) (falsy_to_None b)
         (falsy_to_None am) (falsy_to_None ah))
  ∧ (∀ e t, Debug_init e t = Debug_init (falsy_to_None e) (falsy_to_None t))
  ∧ (∀ cwd fp mb bc enc lf df,
       Logging_init cwd fp mb bc enc lf df =
       Logging_init cwd (falsy_to_None fp) (falsy_to_None mb)
         (falsy_to_None bc) (falsy_to_None enc) (falsy_to_None lf)
         (falsy_to_None df))
  ∧ (∀ ty dr us pw ho po db,
       Database_init ty dr us pw ho po db =
       Database_init (falsy_to_None ty) (falsy_to_None dr)
         (falsy_to_None us) (falsy_to_None pw) (falsy_to_None ho)
         (falsy_to_None po) (falsy_to_None db))
  ∧ (∀ cwd fp,
       TestDatabase_init cwd fp = TestDatabase_init cwd (falsy_to_None fp))
  ∧ (∀ sk rk ek sa ea enc am rm,
       Authentication_init sk rk ek sa ea enc am rm =
       Authentication_init sk rk ek (falsy_to_None sa) (falsy_to_None ea)
         (falsy_to_None enc) (falsy_to_None am) (falsy_to_None rm)).
Proof.
  repeat split; intros;
    unfold Security_init, Debug_init, Logging_init, Database_init,
      TestDatabase_init, Authentication_init; simpl;
    rewrite ?py_or_falsy_to_None; auto using py_or_bool_True.
Qed.

End ConfigProperties.

(** ** The user handler *)

Section UserHandlerProperties.
Context `{AuthHandler} `{Unicode}.

(** The username query finds a row exactly when some row of the table
    has the name. *)
Lemma first_User_where_username_None (session : Session) (name : string) :
  first_User_where_username session name = None
  ↔ ∀ key u, users session !! key = Some u → username u ≠ name.
Proof.
  unfold first_User_where_username. rewrite head_None. split.
  - intros Hnil key u Hlookup Hname.
    eapply filter_nil_not_elem_of; [exact Hnil | exact Hname |].
    apply list_elem_of_fmap. exists (key, u). split; [reflexivity|].
    apply elem_of_map_to_list. exact Hlookup.
  - intros Hfresh.
    destruct (filter _ _) as [|u rest] eqn:Hfilter; [reflexivity|].
    assert (Hin : u ∈ filter (λ u : User, username u = name)
                    ((map_to_list (users session)).*2))
      by (rewrite Hfilter; left).
    apply list_elem_of_filter in Hin as [Hname Hin].
    apply list_elem_of_fmap in Hin as [[key u'] [-> Hin]].
    apply elem_of_map_to_list in Hin.
    destruct (Hfresh key u' Hin Hname).
Qed.

Lemma first_User_where_username_found (session : Session) (name : string)
    (key : string) (u : User) :
  users session !! key = Some u → username u = name →
  truthy (first_User_where_username session name) = true.
Proof.
  intros Hlookup Hname.
  destruct (first_User_where_username session name) as [found|] eqn:Hfirst;
    [reflexivity|].
  destruct (proj1 (first_User_where_username_None _ _) Hfirst
              key u Hlookup Hname).
Qed.

(** [create_user] writes nothing when it raises. *)
Lemma create_user_raises_unchanged new_id new_user session e :
  (create_user new_id new_user session).1 = Raised e →
  (create_user new_id new_user session).2 = session.
Proof.
  unfold create_user.
  repeat (case_match; simpl; try reflexivity); discriminate.
Qed.

(** [create_user] raises [HTTPException] or [IntegrityError] only. *)
Lemma create_user_raises new_id new_user session e :
  (create_user new_id new_user session).1 = Raised e →
  (∃ status detail, e = HTTPException status detail) ∨ e = IntegrityError.
Proof.
  unfold create_user.
  repeat (case_match; simpl); intros [= <-]; eauto.
Qed.

(** When it returns, it has added the row of the new user. *)
Lemma create_user_returns new_id new_user session :
  first_User_where_username session (new_username new_user) = None →
  validate_username (new_username new_user) = true →
  validate_password (new_password new_user) = true →
  get_User session new_id = None →
  let user := User_new new_id (new_username new_user)
                (crypt_hash (new_password new_user))
                (new_roleId new_user) in
  create_user new_id new_user session
  = (Returned user, put_User session user).
Proof.
  intros Hfree Hname Hpass Hid. unfold create_user.
  rewrite Hfree, Hname, Hpass, Hid. reflexivity.
Qed.

(** C9.  When the new username is that of a row of the user table,
    [update_user_info] raises the 409 conflict and writes nothing; the row
    may be the one of the target user.  So an update that keeps the
    username of a stored target user never goes through. *)
Theorem update_user_info_username_conflict
    (acquired_user updated_user : User) (session : Session) :
  ((∃ key u, users session !! key = Some u
             ∧ username u = username updated_user) →
   update_user_info acquired_user updated_user session
   = (Raised (HTTPException 409 "Username already exists"), session))
  ∧ (get_User session (id acquired_user) = Some acquired_user →
     username updated_user = username acquired_user →
     update_user_info acquired_user updated_user session
     = (Raised (HTTPException 409 "Username already exists"), session)
     ∧ get_User
         (update_user_info acquired_user updated_user session).2
         (id acquired_user) = Some acquired_user).
Proof.
  assert (Hconflict : ∀ key u, users session !! key = Some u →
            username u = username updated_user →
            update_user_info acquired_user updated_user session
            = (Raised (HTTPException 409 "Username already exists"),
               session)).
  { intros key u Hlookup Hname. unfold update_user_info.
    rewrite (first_User_where_username_found _ _ key u Hlookup Hname).
    reflexivity. }
  split.
  - intros (key & u & Hlookup & Hname). eauto.
  - intros Hstored Hsame.
    rewrite (Hconflict _ _ Hstored (eq_sym Hsame)). auto.
Qed.

End UserHandlerProperties.

Section UserHandlerConflictScenario.
#[local] Existing Instance Scenario.latin1.

(** The conflict on the scenario: the principal keeps the username and
    changes the role. *)
Lemma update_user_info_username_conflict_witness :
  update_user_info Scenario.principal
    (User_new "u2" "principal" (Scenario.hash "Secr3tPass") 3)
    Scenario.session0
  = (Raised (HTTPException 409 "Username already exists"),
     Scenario.session0).
Proof.
  apply (update_user_info_username_conflict Scenario.principal
           (User_new "u2" "principal" (Scenario.hash "Secr3tPass") 3)
           Scenario.session0).
  - reflexivity.
  - reflexivity.
Defined.

End UserHandlerConflictScenario.

(** ** The authentication routes *)

Section RouteProperties.
Context `{AuthHandler} `{Unicode} `{AppConfig}.

(** Every outcome of [create_new_user] is an exception, and the session is
    as it was. *)
Lemma create_new_user_raises
    (new_id : string) (new_user : UserCreate) (token : DecodedJWTToken)
    (session : Session) :
  ∃ e, create_new_user new_id new_user token session = (Raised e, session).
Proof.
  unfold create_new_user.
  repeat (case_match; simpl; eauto).
  all: discriminate.
Qed.

(** Every outcome of [invite_user] is an exception, and the session is as
    it was. *)
Lemma invite_user_raises_unchanged
    (genpass : string) (new_user : UserInvite) (token : DecodedJWTToken)
    (session : Session) :
  ∃ e, invite_user genpass new_user token session = (Raised e, session).
Proof.
  unfold invite_user.
  repeat (case_match; simpl; eauto).
Qed.

(** C5.  [create_new_user] checks the permission first, then looks the
    role up, then compares the ranks, then calls [create_user]: a missing
    permission is reported whatever the role is, a missing role whatever
    its rank is, a rank that is too low whatever the new user looks like;
    between the permission and the role it loads the row of the
    requester, whose rank it compares.
    A request that passes the checks reaches the call that is to
    create the user; the call hands [create_user] more than it takes, so
    it raises [TypeError] before [create_user] runs, and no user is
    created.  Every outcome is an exception and leaves the session as it
    was. *)
Theorem create_new_user_checks_in_order
    (new_id : string) (new_user : UserCreate) (token : DecodedJWTToken)
    (session : Session) :
  (verify_user_permission "users:create" session token = false →
   create_new_user new_id new_user token session
   = (Raised (HTTPException 403
                "You do not have permission to create a user."), session))
  ∧ (verify_user_permission "users:create" session token = true →
     get_User session (token_id token) = None →
     create_new_user new_id new_user token session
     = (Raised (HTTPException 403 "User not found."), session))
  ∧ (∀ user,
       verify_user_permission "users:create" session token = true →
       get_User session (token_id token) = Some user →
       (get_Role session (new_roleId new_user) = None →
        create_new_user new_id new_user token session
        = (Raised (HTTPException 400 "Invalid role ID provided."), session))
       ∧ (is_Some (get_Role session (new_roleId new_user)) →
          new_roleId new_user < roleId user →
          create_new_user new_id new_user token session
          = (Raised (HTTPException 403
               "You do not have permission to create a user with this role."),
             session))
       ∧ (is_Some (get_Role session (new_roleId new_user)) →
          roleId user ≤ new_roleId new_user →
          ∃ message,
            bind_arguments "create_user" create_user_parameters
              3 ["email_verified"]
            = Raised (TypeError message)
            ∧ create_new_user new_id new_user token session
              = (Raised (TypeError message), session)))
  ∧ (∃ e,
       create_new_user new_id new_user token session = (Raised e, session)).
Proof.
  split; [|split; [|split]].
  - unfold create_new_user. intros ->. reflexivity.
  - unfold create_new_user. intros -> ->. reflexivity.
  - unfold create_new_user. intros user -> ->. simpl. split; [|split].
    + intros ->. reflexivity.
    + intros [role ->] Hlow%Z.ltb_lt. rewrite Hlow. reflexivity.
    + intros [role ->] Hhigh%Z.ltb_ge. rewrite Hhigh.
      eexists. split; reflexivity.
  - apply create_new_user_raises.
Qed.

(** C3, as the code has it.  For a requester who holds [users:create] and
    is in the user table: a request for a role that is not in the role
    table is answered with the 400, whatever the rank of the role id; a
    request for a role of the table whose id is below the requester's is
    answered with the 403; in both cases the session is as it was, for
    [create_new_user] and for [invite_user].  A role of the table whose
    id is equal to or above the requester's is not refused by the rank
    check. *)
Theorem role_rank_bounds_create_and_invite
    (token : DecodedJWTToken) (session : Session) (requester : User) :
  verify_user_permission "users:create" session token = true →
  get_User session (token_id token) = Some requester →
  (∀ new_id new_user,
     (get_Role session (new_roleId new_user) = None →
      create_new_user new_id new_user token session
      = (Raised (HTTPException 400 "Invalid role ID provided."), session))
     ∧ (is_Some (get_Role session (new_roleId new_user)) →
        new_roleId new_user < roleId requester →
        create_new_user new_id new_user token session
        = (Raised (HTTPException 403
             "You do not have permission to create a user with this role."),
           session))
     ∧ (is_Some (get_Role session (new_roleId new_user)) →
        roleId requester ≤ new_roleId new_user →
        ∀ detail,
          (create_new_user new_id new_user token session).1
          ≠ Raised (HTTPException 403 detail)))
  ∧ (∀ genpass invitation,
       (get_Role session (inv_roleId invitation) = None →
        invite_user genpass invitation token session
        = (Raised (HTTPException 400 "Invalid role ID provided."), session))
       ∧ (is_Some (get_Role session (inv_roleId invitation)) →
          inv_roleId invitation < roleId requester →
          invite_user genpass invitation token session
          = (Raised (HTTPException 403
               "You do not have permission to invite a user with this role."),
             session))
       ∧ (is_Some (get_Role session (inv_roleId invitation)) →
          roleId requester ≤ inv_roleId invitation →
          ∀ detail,
            (invite_user genpass invitation token session).1
            ≠ Raised (HTTPException 403 detail))).
Proof.
  intros Hperm Hrequester. split.
  - intros new_id new_user. unfold create_new_user.
    rewrite Hperm, Hrequester. simpl. split; [|split].
    + intros ->. reflexivity.
    + intros [role ->] Hlow%Z.ltb_lt. rewrite Hlow. reflexivity.
    + intros [role ->] Hhigh%Z.ltb_ge detail. rewrite Hhigh. discriminate.
  - intros genpass invitation. unfold invite_user.
    rewrite Hperm, Hrequester. simpl. split; [|split].
    + intros ->. reflexivity.
    + intros [role ->] Hlow%Z.ltb_lt. rewrite Hlow. reflexivity.
    + intros [role ->] Hhigh%Z.ltb_ge detail. rewrite Hhigh. discriminate.
Qed.

(** C4.  Once the token has been verified, [refresh_access_token] looks
    the subject up in the user table; without a row for it the request
    ends in the 401 and no token is returned.  So after the row of a user
    is deleted, every token of that user is refused. *)
Theorem refresh_access_token_rechecks_user
    (refresh_token fresh_uuid : string) (session : Session)
    (decoded_token : DecodedJWTToken) :
  verify_access_token refresh_token = Returned decoded_token →
  (get_User session (token_id decoded_token) = None →
   refresh_access_token refresh_token fresh_uuid session
   = Raised (HTTPException 401 "Invalid or expired refresh token."))
  ∧ refresh_access_token refresh_token fresh_uuid
      (delete_User session (token_id decoded_token))
    = Raised (HTTPException 401 "Invalid or expired refresh token.").
Proof.
  intros Hverify.
  assert (Hgone : ∀ session',
            get_User session' (token_id decoded_token) = None →
            refresh_access_token refresh_token fresh_uuid session'
            = Raised (HTTPException 401
                        "Invalid or expired refresh token.")).
  { intros session' Hnone. unfold refresh_access_token.
    rewrite Hverify. simpl. rewrite Hnone. reflexivity. }
  split; [apply Hgone|].
  apply Hgone. unfold get_User, delete_User. simpl.
  apply lookup_delete_eq.
Qed.

(** A token that [verify_access_token] refuses is refused by the refresh
    endpoint. *)
Lemma refresh_access_token_refused
    (refresh_token fresh_uuid : string) (session : Session)
    (status : Z) (detail : string) :
  verify_access_token refresh_token
  = Raised (HTTPException status detail) →
  refresh_access_token refresh_token fresh_uuid session
  = Raised (HTTPException 401 "Invalid or expired refresh token.").
Proof.
  intros Hverify. unfold refresh_access_token. rewrite Hverify.
  reflexivity.
Qed.

(** C2.  The access check of the routes and the refresh endpoint verify a
    token with the same call, [verify_access_token(token)], and the
    endpoint reads nothing but the subject of the decoded token: a token
    that is accepted where an access token is required, and whose subject
    is in the user table, is accepted by the refresh endpoint, which
    answers with a new access token. *)
Theorem refresh_access_token_accepts_access_tokens
    (bearer fresh_uuid : string) (session : Session)
    (decoded_token : DecodedJWTToken) (user : User) :
  logged_in_dep bearer = Returned decoded_token →
  get_User session (token_id decoded_token) = Some user →
  refresh_access_token bearer fresh_uuid session
  = Returned {| uid := fresh_uuid;
                access_token :=
                  create_access_token (id user)
                    (access_token_expire_minutes authentication) false;
                refresh_token := Some bearer;
                token_type := "bearer" |}.
Proof.
  unfold logged_in_dep, refresh_access_token.
  intros -> Huser. simpl. rewrite Huser. reflexivity.
Qed.

(** C6.  When [authenticate_user] returns the user and the user has no
    verified OTP secret, the login answers with a token response: its
    access token is the one issued for the user, not the empty string as
    the issuer issues none; it holds a refresh token when [remember_me]
    is true and none when it is false, its default. *)
Theorem request_access_token_without_mfa
    (data_username data_password : string) (client_host : option string)
    (remember_me : bool) (now : Z) (fresh_uuid : string)
    (session session' : Session) (user : User) :
  (∀ user_id minutes refresh,
     create_access_token user_id minutes refresh ≠ "") →
  authenticate_user data_username data_password client_host session
  = (AuthUser user, session') →
  truthy (otpSecret user) && otpVerified user = false →
  ∃ token,
    (request_access_token data_username data_password client_host
       remember_me now fresh_uuid session).1
    = Returned (TokenResponse token)
    ∧ access_token token ≠ ""
    ∧ access_token token
      = create_access_token (id user)
          (access_token_expire_minutes authentication) false
    ∧ (is_Some (refresh_token token) ↔ remember_me = true)
    ∧ (remember_me = true →
       refresh_token token
       = Some (create_access_token (id user)
                 (refresh_token_expire_minutes authentication) true))
    ∧ (remember_me = false → refresh_token token = None).
Proof.
  intros Hissuer Hauth Hmfa. unfold request_access_token.
  rewrite Hauth, Hmfa. simpl. eexists. split; [reflexivity|]. simpl.
  split; [apply Hissuer|]. split; [reflexivity|].
  destruct remember_me; simpl; repeat split;
    eauto; try discriminate; intros []; discriminate.
Qed.

End RouteProperties.

(** *** The routes on the scenario *)

Section RouteScenario.
Import Scenario.
#[local] Existing Instance auth_handler.
#[local] Existing Instance latin1.
#[local] Existing Instance app_config.

Lemma session0_consistent : consistent session0.
Proof.
  unfold consistent, session0. simpl.
  repeat apply map_Forall_insert_2; try reflexivity.
  apply map_Forall_empty.
Qed.

Lemma issue_not_empty user_id minutes refresh :
  issue user_id minutes refresh ≠ "".
Proof. destruct refresh; discriminate. Qed.

(** The principal (role 2) asks for a user of role 0, which is not a
    role: the answer is the 400, although 0 is below 2.  Asked for a user
    of role 1 under a username that is taken, the answer is the 403 of
    the rank check.  The canteen manager holds no [users:create].  Asked
    for a user of role 3 under a free username, the answer is the
    [TypeError] of the call, and the session is as it was. *)
Lemma create_new_user_checks_in_order_witness :
  create_new_user "u9" (new_user_request "teacher1" 0) (token_of "u2")
    session0
  = (Raised (HTTPException 400 "Invalid role ID provided."), session0)
  ∧ create_new_user "u9" (new_user_request "principal" 1) (token_of "u2")
      session0
    = (Raised (HTTPException 403
         "You do not have permission to create a user with this role."),
       session0)
  ∧ create_new_user "u9" (new_user_request "teacher1" 3) (token_of "u3")
      session0
    = (Raised (HTTPException 403
         "You do not have permission to create a user."), session0)
  ∧ ∃ message,
      create_new_user "u9" (new_user_request "teacher1" 3) (token_of "u2")
        session0
      = (Raised (TypeError message), session0).
Proof.
  split; [|split; [|split]].
  - destruct (create_new_user_checks_in_order "u9"
                (new_user_request "teacher1" 0) (token_of "u2") session0)
      as (_ & _ & Hchecks & _).
    apply (Hchecks principal); reflexivity.
  - destruct (create_new_user_checks_in_order "u9"
                (new_user_request "principal" 1) (token_of "u2") session0)
      as (_ & _ & Hchecks & _).
    apply (Hchecks principal); [reflexivity | reflexivity | | ].
    + vm_compute. eauto.
    + vm_compute. reflexivity.
  - destruct (create_new_user_checks_in_order "u9"
                (new_user_request "teacher1" 3) (token_of "u3") session0)
      as (Hperm & _).
    apply Hperm. reflexivity.
  - destruct (create_new_user_checks_in_order "u9"
                (new_user_request "teacher1" 3) (token_of "u2") session0)
      as (_ & _ & Hchecks & _).
    destruct (Hchecks principal) as (_ & _ & Hcall);
      [reflexivity | reflexivity |].
    destruct Hcall as (message & _ & Hroute).
    + vm_compute. eauto.
    + vm_compute. discriminate.
    + exists message. exact Hroute.
Defined.

(** C3 fails as it is stated.  The principal holds [users:create] and
    asks for a user of role 0, which is below the own role 2 and is not a
    role: the answer of [create_new_user] and of [invite_user] is the 400
    of the role lookup, not the 403. *)
Lemma role_rank_alone_does_not_decide :
  verify_user_permission "users:create" session0 (token_of "u2") = true
  ∧ get_User session0 "u2" = Some principal
  ∧ 0 < roleId principal
  ∧ create_new_user "u9" (new_user_request "teacher1" 0) (token_of "u2")
      session0
    = (Raised (HTTPException 400 "Invalid role ID provided."), session0)
  ∧ invite_user "Abcdefghijk1" (invite_request "teacher1" 0)
      (token_of "u2") session0
    = (Raised (HTTPException 400 "Invalid role ID provided."), session0).
Proof.
  repeat split; try reflexivity.
Qed.

(** The principal is refused a user of role 1, by [create_new_user] and
    by [invite_user], is told that 9 is no role, and is not refused a user
    of role 3 by the rank check. *)
Lemma role_rank_bounds_create_and_invite_witness :
  create_new_user "u9" (new_user_request "teacher1" 1) (token_of "u2")
    session0
  = (Raised (HTTPException 403
       "You do not have permission to create a user with this role."),
     session0)
  ∧ invite_user "Abcdefghijk1" (invite_request "teacher1" 1)
      (token_of "u2") session0
    = (Raised (HTTPException 403
         "You do not have permission to invite a user with this role."),
       session0)
  ∧ create_new_user "u9" (new_user_request "teacher1" 9) (token_of "u2")
      session0
    = (Raised (HTTPException 400 "Invalid role ID provided."), session0)
  ∧ invite_user "Abcdefghijk1" (invite_request "teacher1" 9)
      (token_of "u2") session0
    = (Raised (HTTPException 400 "Invalid role ID provided."), session0)
  ∧ (∀ detail,
       (create_new_user "u9" (new_user_request "teacher1" 3)
          (token_of "u2") session0).1
       ≠ Raised (HTTPException 403 detail))
  ∧ (∀ detail,
       (invite_user "Abcdefghijk1" (invite_request "teacher1" 3)
          (token_of "u2") session0).1
       ≠ Raised (HTTPException 403 detail)).
Proof.
  destruct (role_rank_bounds_create_and_invite (token_of "u2") session0
              principal) as [Hcreate Hinvite];
    [reflexivity | reflexivity |].
  split; [|split; [|split; [|split; [|split]]]].
  - apply (Hcreate "u9" (new_user_request "teacher1" 1)).
    + vm_compute. eauto.
    + vm_compute. reflexivity.
  - apply (Hinvite "Abcdefghijk1" (invite_request "teacher1" 1)).
    + vm_compute. eauto.
    + vm_compute. reflexivity.
  - apply (Hcreate "u9" (new_user_request "teacher1" 9)). reflexivity.
  - apply (Hinvite "Abcdefghijk1" (invite_request "teacher1" 9)).
    reflexivity.
  - apply (Hcreate "u9" (new_user_request "teacher1" 3)).
    + vm_compute. eauto.
    + vm_compute. discriminate.
  - apply (Hinvite "Abcdefghijk1" (invite_request "teacher1" 3)).
    + vm_compute. eauto.
    + vm_compute. discriminate.
Defined.

(** The refresh token of the principal is refused once the row of the
    principal is deleted, and so is the one of a user who has no row. *)
Lemma refresh_access_token_rechecks_user_witness :
  @refresh_access_token lenient_handler app_config "refresh:u7" "uuid"
    session0
  = Raised (HTTPException 401 "Invalid or expired refresh token.")
  ∧ @refresh_access_token lenient_handler app_config "refresh:u2" "uuid"
      (delete_User session0 "u2")
    = Raised (HTTPException 401 "Invalid or expired refresh token.").
Proof.
  split.
  - apply (@refresh_access_token_rechecks_user lenient_handler app_config
             "refresh:u7" "uuid" session0
             {| token_id := "u7"; token_kind := RefreshKind |});
      reflexivity.
  - apply (@refresh_access_token_rechecks_user lenient_handler app_config
             "refresh:u2" "uuid" session0
             {| token_id := "u2"; token_kind := RefreshKind |}).
    reflexivity.
Defined.

(** With the access-only check as [verify_access_token], the access
    token of the principal, sent to the refresh endpoint, is answered
    with a new access token. *)
Lemma refresh_access_token_accepts_access_tokens_witness :
  refresh_access_token "access:u2" "uuid" session0
  = Returned {| uid := "uuid";
                access_token := "access:u2";
                refresh_token := Some "access:u2";
                token_type := "bearer" |}.
Proof.
  rewrite (refresh_access_token_accepts_access_tokens "access:u2" "uuid"
             session0 {| token_id := "u2"; token_kind := AccessKind |}
             principal).
  - reflexivity.
  - reflexivity.
  - reflexivity.
Defined.

(** With that check, a refresh token is refused by the refresh endpoint
    as it is by the access check; with a verification that returns the
    claims of either kind, the access check lets a refresh token in. *)
Lemma no_verifier_separates_the_kinds :
  logged_in_dep "refresh:u2" = Raised (HTTPException 401 "TokenWrongKind")
  ∧ refresh_access_token "refresh:u2" "uuid" session0
    = Raised (HTTPException 401 "Invalid or expired refresh token.")
  ∧ @logged_in_dep lenient_handler "refresh:u2"
    = Returned {| token_id := "u2"; token_kind := RefreshKind |}
  ∧ @refresh_access_token lenient_handler app_config "access:u2" "uuid"
      session0
    = Returned {| uid := "uuid";
                  access_token := "access:u2";
                  refresh_token := Some "access:u2";
                  token_type := "bearer" |}.
Proof. repeat split. Qed.

(** The superintendent logs in, with and without [remember_me]. *)
Lemma request_access_token_without_mfa_witness :
  (∃ token,
     (request_access_token "scars" "Passw0rd" (Some "10.0.0.7") true
        1750000000 "uuid" session0).1
     = Returned (TokenResponse token)
     ∧ access_token token = "access:u1"
     ∧ refresh_token token = Some "refresh:u1")
  ∧ (∃ token,
       (request_access_token "scars" "Passw0rd" (Some "10.0.0.7") false
          1750000000 "uuid" session0).1
       = Returned (TokenResponse token)
       ∧ access_token token = "access:u1"
       ∧ refresh_token token = None).
Proof.
  split.
  - destruct (request_access_token_without_mfa "scars" "Passw0rd"
                (Some "10.0.0.7") true 1750000000 "uuid" session0 session0
                superintendent)
      as (token & Hresponse & _ & Haccess & _ & Hrefresh & _).
    + apply issue_not_empty.
    + reflexivity.
    + reflexivity.
    + exists token. split; [exact Hresponse|].
      split; [exact Haccess|]. apply Hrefresh. reflexivity.
  - destruct (request_access_token_without_mfa "scars" "Passw0rd"
                (Some "10.0.0.7") false 1750000000 "uuid" session0 session0
                superintendent)
      as (token & Hresponse & _ & Haccess & _ & _ & Hnone).
    + apply issue_not_empty.
    + reflexivity.
    + reflexivity.
    + exists token. split; [exact Hresponse|].
      split; [exact Haccess|]. apply Hnone. reflexivity.
Defined.

End RouteScenario.

(** ** The OAuth adapters *)

Section AdapterProperties.
Context `{Httpx}.

(** Run an exchange up to and including its token request. *)
Ltac run_exchange Hpost :=
  simpl;
  unfold Google_exchange_code_for_token, Facebook_exchange_code_for_token,
    Microsoft_exchange_code_for_token;
  rewrite Hpost; simpl; try reflexivity.

(** C7, as the code has it.  An adapter catches nothing and reads no
    status code.  It sends the token request of its provider; an
    exception of that request, a timeout for one, is the outcome of the
    exchange.  A response is decoded whatever its status code is: when it
    is not JSON, the outcome is the decoding error; when it is a JSON
    object, the exchange goes on to the profile request of its provider
    with the [access_token] member of the object, [None] when there is
    none, and the outcome is the exception of that request or the decoded
    document of its answer. *)
Theorem exchange_lets_provider_failures_through
    (adapter : Adapter) (code : string) :
  (∀ e,
     token_request adapter code = Raised e →
     exchange adapter code = Raised e)
  ∧ (∀ token_response,
       token_request adapter code = Returned token_response →
       body token_response = None →
       exchange adapter code = Raised JSONDecodeError)
  ∧ (∀ token_response fields e,
       token_request adapter code = Returned token_response →
       body token_response = Some (JObj fields) →
       profile_request adapter fields = Raised e →
       exchange adapter code = Raised e)
  ∧ (∀ token_response fields profile_response,
       token_request adapter code = Returned token_response →
       body token_response = Some (JObj fields) →
       profile_request adapter fields = Returned profile_response →
       exchange adapter code = json profile_response).
Proof.
  unfold token_request, profile_request. repeat split.
  - intros e Hpost. destruct adapter; simpl in Hpost; run_exchange Hpost.
  - intros [status document] Hpost Hbody. simpl in Hbody. subst document.
    destruct adapter; simpl in Hpost; run_exchange Hpost.
  - intros [status document] fields e Hpost Hbody Hget.
    simpl in Hbody. subst document.
    destruct adapter; simpl in Hpost, Hget; run_exchange Hpost;
      rewrite Hget; reflexivity.
  - intros [status document] fields profile_response Hpost Hbody Hget.
    simpl in Hbody. subst document.
    destruct adapter; simpl in Hpost, Hget; run_exchange Hpost;
      rewrite Hget; reflexivity.
Qed.

End AdapterProperties.

(** C7 fails as it is stated: when the provider does not answer in time
    the exchange raises the timeout, and when the provider refuses the
    code with a 400 the exchange returns the error document of the
    profile request as if it were the profile. *)
Lemma exchange_raises_on_timeout :
  @exchange Scenario.timing_out (GoogleAdapter Scenario.google_config)
    "4/0AX4XfWh"
  = Raised TimeoutException
  ∧ @exchange Scenario.timing_out (FacebookAdapter Scenario.facebook_config)
      "4/0AX4XfWh"
    = Raised TimeoutException
  ∧ @exchange Scenario.refusing (GoogleAdapter Scenario.google_config)
      "4/0AX4XfWh"
    = Returned Scenario.invalid_credentials
  ∧ @exchange Scenario.unavailable (GoogleAdapter Scenario.google_config)
      "4/0AX4XfWh"
    = Raised JSONDecodeError.
Proof. repeat split. Qed.

(** The provider times out, answers with a page that is not JSON, refuses
    the code and then the profile request (the error document is what the
    exchange returns), and answers the two requests of the Google adapter
    with the token and the profile. *)
Lemma exchange_lets_provider_failures_through_witness :
  @exchange Scenario.timing_out (GoogleAdapter Scenario.google_config)
    "4/0AX4XfWh"
  = Raised TimeoutException
  ∧ @exchange Scenario.unavailable
      (FacebookAdapter Scenario.facebook_config) "4/0AX4XfWh"
    = Raised JSONDecodeError
  ∧ @exchange Scenario.refusing (GoogleAdapter Scenario.google_config)
      "4/0AX4XfWh"
    = Returned Scenario.invalid_credentials
  ∧ @exchange Scenario.answering (GoogleAdapter Scenario.google_config)
      "4/0AX4XfWh"
    = Returned Scenario.google_profile.
Proof.
  split; [|split; [|split]]; cycle 3.
  - destruct (@exchange_lets_provider_failures_through Scenario.answering
                (GoogleAdapter Scenario.google_config) "4/0AX4XfWh")
      as (_ & _ & _ & Hprofile).
    rewrite (Hprofile {| status_code := 200;
                         body := Some (JObj [("access_token",
                                              JStr "ya29.a0Af")]) |}
               [("access_token", JStr "ya29.a0Af")]
               {| status_code := 200;
                  body := Some Scenario.google_profile |});
      reflexivity.
  - apply (@exchange_lets_provider_failures_through Scenario.timing_out).
    reflexivity.
  - apply (@exchange_lets_provider_failures_through Scenario.unavailable
             (FacebookAdapter Scenario.facebook_config) "4/0AX4XfWh")
      with (token_response := {| status_code := 503; body := None |});
      reflexivity.
  - destruct (@exchange_lets_provider_failures_through Scenario.refusing
                (GoogleAdapter Scenario.google_config) "4/0AX4XfWh")
      as (_ & _ & _ & Hprofile).
    rewrite (Hprofile {| status_code := 400;
                         body := Some Scenario.invalid_grant |}
               [("error", JStr "invalid_grant")]
               {| status_code := 401;
                  body := Some Scenario.invalid_credentials |});
      reflexivity.
Defined.

(** ** The unlink routes *)

Section UnlinkProperties.
Context `{AppConfig}.

(** C8, as the code has it.  A route of a provider that is not configured
    answers with the 501 and writes nothing.  For a configured provider:
    without a row for the user of the token the answer is the 404 and
    nothing is written; with one, in a table that stores each row under
    its id, the route writes that row with the linkage id of the provider
    cleared and every other field as it was, the linkage ids of the other
    providers among them, and no other row. *)
Theorem oauth_unlink_clears_one_linkage
    (provider : Provider) (token : DecodedJWTToken) (session : Session) :
  (configured provider = false →
   ∃ detail,
     oauth_unlink provider token session
     = (Raised (HTTPException 501 detail), session))
  ∧ (configured provider = true →
     get_User session (token_id token) = None →
     oauth_unlink provider token session
     = (Raised (HTTPException 404 "User not found."), session))
  ∧ (configured provider = true →
     consistent session →
     ∀ user,
       get_User session (token_id token) = Some user →
       ∃ message user',
         oauth_unlink provider token session
         = (Returned message,
            {| users := <[token_id token := user']> (users session);
               roles := roles session |})
         ∧ linkage_id provider user' = None
         ∧ same_but_linkage provider user user').
Proof.
  split; [|split].
  - destruct provider; simpl; unfold oauth_unlink_google,
      oauth_unlink_microsoft, oauth_unlink_facebook;
      intros Hnone%bool_decide_eq_false;
      (match goal with
       | |- context [match ?adapter with _ => _ end] =>
           destruct adapter; [destruct Hnone; eauto | eauto]
       end).
  - destruct provider; simpl; unfold oauth_unlink_google,
      oauth_unlink_microsoft, oauth_unlink_facebook;
      intros [config Hsome]%bool_decide_eq_true Huser;
      rewrite Hsome, Huser; reflexivity.
  - intros Hconfigured Hconsistent user Huser.
    assert (Hid : id user = token_id token)
      by exact (map_Forall_lookup_1 _ _ _ _ Hconsistent Huser).
    destruct provider; simpl in *;
      unfold oauth_unlink_google, oauth_unlink_microsoft,
        oauth_unlink_facebook, put_User;
      apply bool_decide_eq_true in Hconfigured as [config Hsome];
      rewrite Hsome, Huser; simpl; rewrite Hid;
      do 2 eexists; (split; [reflexivity|]); (split; [reflexivity|]);
      unfold same_but_linkage; simpl; repeat split; try reflexivity;
      intros []; simpl; congruence.
Qed.

End UnlinkProperties.

(** C8 fails as it is stated: Facebook is not configured in the scenario,
    and the Facebook route answers the principal, who has a Facebook
    linkage, with the 501 and keeps the linkage; a token of a user without
    a row gets the 501 as well, not the 404. *)
Lemma oauth_unlink_unconfigured_provider :
  get_User Scenario.session0 "u2" = Some Scenario.principal
  ∧ oauthLinkedFacebookId Scenario.principal = Some "facebook-5678"
  ∧ @oauth_unlink_facebook Scenario.app_config (Scenario.token_of "u2")
      Scenario.session0
    = (Raised (HTTPException 501 "Facebook OAuth is not configured."),
       Scenario.session0)
  ∧ get_User Scenario.session0 "u7" = None
  ∧ @oauth_unlink_facebook Scenario.app_config (Scenario.token_of "u7")
      Scenario.session0
    = (Raised (HTTPException 501 "Facebook OAuth is not configured."),
       Scenario.session0).
Proof. repeat split. Qed.

(** Google is configured: the principal loses the Google linkage and
    keeps the Facebook one; a token of a user without a row gets the
    404. *)
Lemma oauth_unlink_clears_one_linkage_witness :
  (∃ message user',
     @oauth_unlink_google Scenario.app_config (Scenario.token_of "u2")
       Scenario.session0
     = (Returned message,
        {| users := <["u2" := user']> (users Scenario.session0);
           roles := roles Scenario.session0 |})
     ∧ oauthLinkedGoogleId user' = None
     ∧ oauthLinkedFacebookId user' = Some "facebook-5678")
  ∧ @oauth_unlink_google Scenario.app_config (Scenario.token_of "u7")
      Scenario.session0
    = (Raised (HTTPException 404 "User not found."), Scenario.session0)
  ∧ ∃ detail,
      @oauth_unlink_microsoft Scenario.app_config (Scenario.token_of "u2")
        Scenario.session0
      = (Raised (HTTPException 501 detail), Scenario.session0).
Proof.
  split; [|split].
  - destruct (@oauth_unlink_clears_one_linkage Scenario.app_config Google
                (Scenario.token_of "u2") Scenario.session0)
      as (_ & _ & Hclear).
    destruct (Hclear eq_refl session0_consistent Scenario.principal eq_refl)
      as (message & user' & Houtcome & Hcleared & Hsame).
    exists message, user'. split; [exact Houtcome|].
    split; [exact Hcleared|].
    destruct Hsame as (_ & _ & _ & _ & _ & _ & _ & _ & _ & _ & _ & _ & _
                       & _ & _ & _ & Hothers).
    apply (Hothers Facebook). discriminate.
  - apply (@oauth_unlink_clears_one_linkage Scenario.app_config Google
             (Scenario.token_of "u7") Scenario.session0); reflexivity.
  - apply (@oauth_unlink_clears_one_linkage Scenario.app_config Microsoft
             (Scenario.token_of "u2") Scenario.session0). reflexivity.
Defined.

(** * More of the code *)

Import Unlinked Invariants ConfigFile DbHandler Logger LoggerLevels.
Import AuthRoutesRest.

(** ** The user handler: validation, creation, update *)

Section UserHandlerMore.
Context `{AuthHandler} `{Unicode}.

(** The username of a user that [create_user] has returned is taken. *)
Lemma create_user_returned_taken
    (new_id : string) (new_user : UserCreate) (session session' : Session)
    (user : User) :
  create_user new_id new_user session = (Returned user, session') →
  truthy (first_User_where_username session' (new_username new_user))
  = true.
Proof.
  unfold create_user.
  repeat (case_match; try discriminate). intros [= <- <-].
  eapply first_User_where_username_found;
    [apply lookup_insert_eq | reflexivity].
Qed.

(** X3.  After [create_user] has returned a user, the row is found under
    its key and under its username, it holds the hash of the password
    and the requested role, the key was free before, and the other rows
    and the roles are as they were. *)
Theorem create_user_then_lookup
    (new_id : string) (new_user : UserCreate) (session session' : Session)
    (user : User) :
  create_user new_id new_user session = (Returned user, session') →
  get_User session new_id = None
  ∧ get_User session' new_id = Some user
  ∧ truthy (first_User_where_username session' (new_username new_user))
    = true
  ∧ id user = new_id
  ∧ username user = new_username new_user
  ∧ password user = crypt_hash (new_password new_user)
  ∧ roleId user = new_roleId new_user
  ∧ (∀ key, key ≠ new_id → get_User session' key = get_User session key)
  ∧ roles session' = roles session.
Proof.
  unfold create_user.
  repeat (case_match; try discriminate). intros [= <- <-].
  assert (Hstored : get_User
            (put_User session
               (User_new new_id (new_username new_user)
                  (crypt_hash (new_password new_user))
                  (new_roleId new_user))) new_id
          = Some (User_new new_id (new_username new_user)
                    (crypt_hash (new_password new_user))
                    (new_roleId new_user)))
    by apply lookup_insert_eq.
  repeat split; try assumption; try reflexivity.
  - eapply first_User_where_username_found; [exact Hstored | reflexivity].
  - intros key Hkey. unfold get_User, put_User. simpl.
    by apply lookup_insert_ne.
Qed.

(** X4.  A username can be given once: after [create_user] has returned,
    [create_user] for the same username raises the 409 and writes
    nothing, whatever the rest of the request is. *)
Theorem create_user_twice_conflict
    (new_id : string) (new_user : UserCreate) (session session' : Session)
    (user : User) (other_id : string) (other : UserCreate) :
  create_user new_id new_user session = (Returned user, session') →
  new_username other = new_username new_user →
  create_user other_id other session'
  = (Raised (HTTPException 409 "Username already exists"), session').
Proof.
  intros Hcreated Hname.
  pose proof (create_user_returned_taken _ _ _ _ _ Hcreated) as Hfound.
  unfold create_user at 1. rewrite Hname, Hfound. reflexivity.
Qed.

(** X5.  [create_user] keeps the user table well-formed: if each row is
    stored under its id and no two rows share a username, the same holds
    of the session that it returns, whether it has raised or not. *)
Theorem create_user_keeps_invariants
    (new_id : string) (new_user : UserCreate) (session : Session) :
  consistent session → unique_usernames session →
  consistent (create_user new_id new_user session).2
  ∧ unique_usernames (create_user new_id new_user session).2.
Proof.
  intros Hconsistent Hunique.
  destruct (create_user new_id new_user session) as [[e|user] session']
    eqn:Hcreate.
  - pose proof (create_user_raises_unchanged new_id new_user session e)
      as Hsame.
    rewrite Hcreate in Hsame. simpl in *. rewrite Hsame by reflexivity.
    split; assumption.
  - simpl. revert Hcreate. unfold create_user.
    repeat (case_match; try discriminate). intros [= <- <-].
    assert (Hfresh : ∀ key u, users session !! key = Some u →
              username u ≠ new_username new_user).
    { apply first_User_where_username_None.
      destruct (first_User_where_username session (new_username new_user));
        [discriminate | reflexivity]. }
    split.
    + unfold consistent, put_User. simpl.
      apply map_Forall_insert_2; [reflexivity | exact Hconsistent].
    + intros key1 key2 u1 u2. unfold put_User. simpl.
      rewrite !lookup_insert. intros Hu1 Hu2 Hname.
      repeat case_decide; simplify_eq/=; try reflexivity;
        try (exfalso; eapply Hfresh; [eassumption | congruence]).
      eauto.
Qed.

End UserHandlerMore.

Section UpdateUserInfoMore.
Context `{Unicode}.

(** [update_user_info] returns only for a username that no row holds. *)
Lemma update_user_info_returned_fresh
    (acquired_user updated_user result : User)
    (session session' : Session) :
  update_user_info acquired_user updated_user session
  = (Returned result, session') →
  ∀ key u, users session !! key = Some u →
    username u ≠ username updated_user.
Proof.
  unfold update_user_info.
  destruct (first_User_where_username session (username updated_user))
    as [found|] eqn:Hfree; [discriminate|]. intros _.
  by apply first_User_where_username_None.
Qed.

Lemma update_user_info_raises_unchanged acquired_user updated_user session e :
  (update_user_info acquired_user updated_user session).1 = Raised e →
  (update_user_info acquired_user updated_user session).2 = session.
Proof.
  unfold update_user_info.
  repeat (case_match; simpl; try reflexivity); discriminate.
Qed.

(** X6.  When [update_user_info] returns, the new username is
    well-formed and was the username of no row; the row of the target is
    now the updated record, stored under the id of that record; the other
    rows and the roles are as they were. *)
Theorem update_user_info_returns
    (acquired_user updated_user result : User)
    (session session' : Session) :
  update_user_info acquired_user updated_user session
  = (Returned result, session') →
  result = updated_user
  ∧ validate_username (username updated_user) = true
  ∧ (∀ key u, users session !! key = Some u →
       username u ≠ username updated_user)
  ∧ get_User session' (id updated_user) = Some updated_user
  ∧ (id updated_user ≠ id acquired_user →
     get_User session' (id acquired_user) = None)
  ∧ (∀ key, key ≠ id acquired_user → key ≠ id updated_user →
       get_User session' key = get_User session key)
  ∧ roles session' = roles session.
Proof.
  unfold update_user_info.
  destruct (first_User_where_username session (username updated_user))
    as [found|] eqn:Hfree; [discriminate|]. simpl.
  destruct (validate_username (username updated_user)) eqn:Hname;
    [|discriminate]. simpl.
  case_match; [discriminate|]. intros [= <- <-].
  unfold get_User. simpl. repeat split.
  - by apply first_User_where_username_None.
  - apply lookup_insert_eq.
  - intros Hid. rewrite lookup_insert_ne by exact Hid.
    apply lookup_delete_eq.
  - intros key Hacquired Hupdated.
    rewrite lookup_insert_ne by congruence.
    by apply lookup_delete_ne.
Qed.

(** X7.  [update_user_info] keeps the user table well-formed: rows
    stored under their ids and usernames that differ stay so, whether it
    has raised or not. *)
Theorem update_user_info_keeps_invariants
    (acquired_user updated_user : User) (session : Session) :
  consistent session → unique_usernames session →
  consistent (update_user_info acquired_user updated_user session).2
  ∧ unique_usernames
      (update_user_info acquired_user updated_user session).2.
Proof.
  intros Hconsistent Hunique.
  destruct (update_user_info acquired_user updated_user session)
    as [[e|result] session'] eqn:Hupdate.
  - pose proof (update_user_info_raises_unchanged acquired_user
                  updated_user session e) as Hsame.
    rewrite Hupdate in Hsame. simpl in *. rewrite Hsame by reflexivity.
    split; assumption.
  - pose proof (update_user_info_returned_fresh _ _ _ _ _ Hupdate)
      as Hfresh.
    revert Hupdate. unfold update_user_info.
    repeat (case_match; try discriminate). intros [= <- <-]. simpl.
    split.
    + unfold consistent. simpl.
      apply map_Forall_insert_2; [reflexivity|].
      by apply map_Forall_delete.
    + intros key1 key2 u1 u2. simpl.
      rewrite !lookup_insert. intros Hu1 Hu2 Hname.
      repeat case_decide; simplify_eq/=; try reflexivity;
        try (apply lookup_delete_Some in Hu1 as [_ Hu1]);
        try (apply lookup_delete_Some in Hu2 as [_ Hu2]);
        try (exfalso; eapply Hfresh; [eassumption | congruence]);
        eauto.
Qed.

End UpdateUserInfoMore.

(** *** The user handler on the scenario *)

Section UserHandlerScenario.
Import Scenario ScenarioRest.
#[local] Existing Instance auth_handler.
#[local] Existing Instance latin1.

Lemma session0_unique_usernames : unique_usernames session0.
Proof.
  intros key1 key2 u1 u2. unfold session0. simpl.
  rewrite !lookup_insert, !lookup_singleton.
  intros Hu1 Hu2 Hname.
  repeat case_decide; simplify_eq/=; reflexivity.
Qed.

Lemma create_user_then_lookup_witness :
  get_User (create_user "u9" (new_user_request "teacher1" 3) session0).2
    "u9"
  = Some (User_new "u9" "teacher1" (hash "Passw0rd1") 3)
  ∧ get_User (create_user "u9" (new_user_request "teacher1" 3) session0).2
      "u2"
    = Some principal.
Proof.
  destruct (create_user_then_lookup "u9" (new_user_request "teacher1" 3)
              session0
              (create_user "u9" (new_user_request "teacher1" 3) session0).2
              (User_new "u9" "teacher1" (hash "Passw0rd1") 3))
    as (_ & Hstored & _ & _ & _ & _ & _ & Hothers & _).
  - vm_compute. reflexivity.
  - split; [exact Hstored|].
    rewrite (Hothers "u2") by discriminate. reflexivity.
Defined.

Lemma create_user_twice_conflict_witness :
  create_user "u10" (new_user_request "teacher1" 2)
    (create_user "u9" (new_user_request "teacher1" 3) session0).2
  = (Raised (HTTPException 409 "Username already exists"),
     (create_user "u9" (new_user_request "teacher1" 3) session0).2).
Proof.
  apply (create_user_twice_conflict "u9" (new_user_request "teacher1" 3)
           session0 _ (User_new "u9" "teacher1" (hash "Passw0rd1") 3)).
  - vm_compute. reflexivity.
  - reflexivity.
Defined.

Lemma create_user_keeps_invariants_witness :
  consistent (create_user "u9" (new_user_request "teacher1" 3) session0).2
  ∧ unique_usernames
      (create_user "u9" (new_user_request "teacher1" 3) session0).2.
Proof.
  apply (create_user_keeps_invariants "u9" (new_user_request "teacher1" 3)
           session0).
  - exact session0_consistent.
  - exact session0_unique_usernames.
Defined.

(** The principal takes the username [headteacher]. *)
Lemma update_user_info_returns_witness :
  get_User
    (update_user_info principal
       (User_new "u2" "headteacher" (hash "Secr3tPass") 2) session0).2
    "u2"
  = Some (User_new "u2" "headteacher" (hash "Secr3tPass") 2)
  ∧ get_User
      (update_user_info principal
         (User_new "u2" "headteacher" (hash "Secr3tPass") 2) session0).2
      "u1"
    = Some superintendent.
Proof.
  destruct (update_user_info_returns principal
              (User_new "u2" "headteacher" (hash "Secr3tPass") 2)
              (User_new "u2" "headteacher" (hash "Secr3tPass") 2)
              session0
              (update_user_info principal
                 (User_new "u2" "headteacher" (hash "Secr3tPass") 2)
                 session0).2)
    as (_ & _ & _ & Hstored & _ & Hothers & _).
  - vm_compute. reflexivity.
  - split; [exact Hstored|].
    rewrite (Hothers "u1") by discriminate. reflexivity.
Defined.

Lemma update_user_info_keeps_invariants_witness :
  consistent
    (update_user_info principal
       (User_new "u2" "headteacher" (hash "Secr3tPass") 2) session0).2
  ∧ unique_usernames
      (update_user_info principal
         (User_new "u2" "headteacher" (hash "Secr3tPass") 2) session0).2.
Proof.
  apply (update_user_info_keeps_invariants principal
           (User_new "u2" "headteacher" (hash "Secr3tPass") 2) session0).
  - exact session0_consistent.
  - exact session0_unique_usernames.
Defined.

End UserHandlerScenario.

(** ** The authentication routes: login, refresh, invitations *)

Section RoutesMore.
Context `{AuthHandler} `{Unicode} `{AppConfig}.

(** X8.  A login of a user with a verified OTP secret is answered with
    the challenge, not with tokens: the nonce of the answer is the one
    written to the row of the user, it expires [otp_nonce_expire_minutes]
    after the login, and the last-login fields of the row stay as they
    were. *)
Theorem request_access_token_with_mfa
    (data_username data_password : string) (client_host : option string)
    (remember_me : bool) (now : Z) (fresh_uuid : string)
    (session session' : Session) (user : User) :
  authenticate_user data_username data_password client_host session
  = (AuthUser user, session') →
  truthy (otpSecret user) && otpVerified user = true →
  (request_access_token data_username data_password client_host
     remember_me now fresh_uuid session).1
  = Returned (OtpChallenge
                "MFA OTP is enabled. Please provide your OTP to continue."
                fresh_uuid)
  ∧ ∃ user',
      get_User
        (request_access_token data_username data_password client_host
           remember_me now fresh_uuid session).2 (id user) = Some user'
      ∧ otpNonce user' = Some fresh_uuid
      ∧ otpNonceExpires user'
        = Some (now + 60 * otp_nonce_expire_minutes)
      ∧ lastLoggedInTime user' = lastLoggedInTime user
      ∧ lastLoggedInIp user' = lastLoggedInIp user.
Proof.
  intros Hauth Hmfa. unfold request_access_token.
  rewrite Hauth, Hmfa. simpl. split; [reflexivity|].
  eexists. split; [apply lookup_insert_eq|]. repeat split.
Qed.

(** X9.  A login writes to one row at most.  When [authenticate_user]
    reports a failure, the route raises its status and detail and leaves
    the session as [authenticate_user] left it.  When it returns a user,
    the rows of the other users and the roles stay as they were, and in
    the row of the user the id, the username, the password, the role, the
    email, the OTP secret and the linkage ids do. *)
Theorem request_access_token_touches_one_row
    (data_username data_password : string) (client_host : option string)
    (remember_me : bool) (now : Z) (fresh_uuid : string)
    (session session' : Session) (outcome : AuthOutcome) :
  authenticate_user data_username data_password client_host session
  = (outcome, session') →
  roles (request_access_token data_username data_password client_host
           remember_me now fresh_uuid session).2
  = roles session'
  ∧ match outcome with
    | AuthFailure status detail =>
        request_access_token data_username data_password client_host
          remember_me now fresh_uuid session
        = (Raised (HTTPException status detail), session')
    | AuthUser user =>
        (∀ key, key ≠ id user →
           get_User
             (request_access_token data_username data_password client_host
                remember_me now fresh_uuid session).2 key
           = get_User session' key)
        ∧ ∃ user',
            get_User
              (request_access_token data_username data_password
                 client_host remember_me now fresh_uuid session).2
              (id user) = Some user'
            ∧ id user' = id user ∧ username user' = username user
            ∧ password user' = password user ∧ roleId user' = roleId user
            ∧ email user' = email user ∧ otpSecret user' = otpSecret user
            ∧ otpVerified user' = otpVerified user
            ∧ oauthLinkedGoogleId user' = oauthLinkedGoogleId user
            ∧ oauthLinkedMicrosoftId user' = oauthLinkedMicrosoftId user
            ∧ oauthLinkedFacebookId user' = oauthLinkedFacebookId user
    end.
Proof.
  intros Hauth. unfold request_access_token. rewrite Hauth.
  destruct outcome as [user|status detail]; [|split; reflexivity].
  destruct (truthy (otpSecret user) && otpVerified user); simpl;
    (split; [reflexivity|]);
    (split; [intros key Hkey; unfold get_User; simpl;
             by apply lookup_insert_ne|]);
    (eexists; split; [apply lookup_insert_eq|]); repeat split.
Qed.

(** X10.  The refresh endpoint returns a token only for a token that
    [verify_access_token] accepts and whose subject has a row; the answer
    carries the presented token back as the refresh token, with an access
    token issued for that row.  An [HTTPException] of the verifier, whatever
    its status and detail, is answered with the 401 and the one detail
    message, and every [HTTPException] of the endpoint is that one.  Any
    other exception of the verifier is the outcome of the endpoint,
    unchanged, and the endpoint raises no other. *)
Theorem refresh_access_token_outcomes
    (refresh_token fresh_uuid : string) (session : Session) :
  (∀ token,
     refresh_access_token refresh_token fresh_uuid session
     = Returned token →
     Models.refresh_token token = Some refresh_token
     ∧ uid token = fresh_uuid
     ∧ ∃ decoded_token user,
         verify_access_token refresh_token = Returned decoded_token
         ∧ get_User session (token_id decoded_token) = Some user
         ∧ access_token token
           = create_access_token (id user)
               (access_token_expire_minutes authentication) false)
  ∧ (∀ status detail,
       verify_access_token refresh_token
       = Raised (HTTPException status detail) →
       refresh_access_token refresh_token fresh_uuid session
       = Raised (HTTPException 401 "Invalid or expired refresh token."))
  ∧ (∀ status detail,
       refresh_access_token refresh_token fresh_uuid session
       = Raised (HTTPException status detail) →
       status = 401 ∧ detail = "Invalid or expired refresh token.")
  ∧ (∀ e,
       (∀ status detail, e ≠ HTTPException status detail) →
       verify_access_token refresh_token = Raised e ↔
       refresh_access_token refresh_token fresh_uuid session = Raised e).
Proof.
  unfold refresh_access_token.
  destruct (verify_access_token refresh_token) as [e|decoded_token]
    eqn:Hverify; simpl.
  - split; [destruct e; intros token [=]|].
    split; [intros status detail [= ->]; reflexivity|].
    split.
    + intros status detail. destruct e; intros [=]; subst; auto.
    + intros e' Hother. split.
      * intros [= <-]. destruct e; try reflexivity.
        exfalso. eapply Hother. reflexivity.
      * destruct e; intros [= <-]; try reflexivity.
        exfalso. eapply Hother. reflexivity.
  - destruct (get_User session (token_id decoded_token)) as [user|]
      eqn:Huser; simpl.
    + split; [intros token [= <-]; simpl; eauto 10|].
      split; [intros; discriminate|].
      split; [intros; discriminate|].
      intros e Hother. split; intros; discriminate.
    + split; [intros token [=]|].
      split; [intros; discriminate|].
      split; [intros status detail [=]; subst; auto|].
      intros e Hother. split; [intros; discriminate|].
      intros [= <-]. exfalso. eapply Hother. reflexivity.
Qed.

(** X11.  No invitation ends in a created user.  [invite_user] refuses a
    requester without [users:create] and one without a row with a 403;
    a request that passes the checks of permission, role and rank ends in
    the [TypeError] of awaiting the [bool] that [validate_password]
    returns.  Every outcome is an exception, and the session is as it
    was. *)
Theorem invite_user_never_returns
    (genpass : string) (new_user : UserInvite) (token : DecodedJWTToken)
    (session : Session) :
  (∃ e, invite_user genpass new_user token session = (Raised e, session))
  ∧ (verify_user_permission "users:create" session token = false →
     invite_user genpass new_user token session
     = (Raised (HTTPException 403
                  "You do not have permission to invite a user."), session))
  ∧ (verify_user_permission "users:create" session token = true →
     get_User session (token_id token) = None →
     invite_user genpass new_user token session
     = (Raised (HTTPException 403 "User not found."), session))
  ∧ (∀ requester,
       verify_user_permission "users:create" session token = true →
       get_User session (token_id token) = Some requester →
       is_Some (get_Role session (inv_roleId new_user)) →
       roleId requester ≤ inv_roleId new_user →
       ∃ message,
         invite_user genpass new_user token session
         = (Raised (TypeError message), session)).
Proof.
  split; [apply invite_user_raises_unchanged|].
  unfold invite_user. split; [|split].
  - intros ->. reflexivity.
  - intros -> ->. reflexivity.
  - intros requester -> -> [role ->] Hrank%Z.ltb_ge. simpl.
    rewrite Hrank. eexists. reflexivity.
Qed.


End RoutesMore.

(** *** The routes on the scenario, continued *)

Section RoutesMoreScenario.
Import Scenario ScenarioRest.
#[local] Existing Instance auth_handler.
#[local] Existing Instance latin1.
#[local] Existing Instance app_config.

(** The user with the OTP secret logs in at time 1750000000. *)
Lemma request_access_token_with_mfa_witness :
  (request_access_token "careful" "S3curePass" None true 1750000000
     "nonce-1" session1).1
  = Returned (OtpChallenge
                "MFA OTP is enabled. Please provide your OTP to continue."
                "nonce-1")
  ∧ ∃ user',
      get_User
        (request_access_token "careful" "S3curePass" None true 1750000000
           "nonce-1" session1).2 "u5" = Some user'
      ∧ otpNonce user' = Some "nonce-1"
      ∧ otpNonceExpires user' = Some 1750000300.
Proof.
  destruct (request_access_token_with_mfa "careful" "S3curePass" None true
              1750000000 "nonce-1" session1 session1 with_otp)
    as (Hanswer & user' & Hrow & Hnonce & Hexpires & _).
  - vm_compute. reflexivity.
  - reflexivity.
  - split; [exact Hanswer|]. exists user'. repeat split; assumption.
Defined.

(** The superintendent logs in: the row of the principal is untouched. *)
Lemma request_access_token_touches_one_row_witness :
  get_User
    (request_access_token "scars" "Passw0rd" None false 1750000000 "uuid"
       session1).2 "u2"
  = Some principal
  ∧ request_access_token "scars" "wrong" None false 1750000000 "uuid"
      session1
    = (Raised (HTTPException 401 "Invalid credentials"), session1).
Proof.
  split.
  - destruct (request_access_token_touches_one_row "scars" "Passw0rd" None
                false 1750000000 "uuid" session1 session1
                (AuthUser superintendent)) as (_ & Hothers & _).
    + vm_compute. reflexivity.
    + rewrite (Hothers "u2") by discriminate. reflexivity.
  - destruct (request_access_token_touches_one_row "scars" "wrong" None
                false 1750000000 "uuid" session1 session1
                (AuthFailure 401 "Invalid credentials")) as (_ & Hfailure).
    + vm_compute. reflexivity.
    + exact Hfailure.
Defined.

(** The access token of the principal is answered with tokens. *)
Lemma refresh_access_token_outcomes_witness :
  refresh_access_token "access:u2" "uuid" session0
  = Returned {| uid := "uuid"; access_token := "access:u2";
                refresh_token := Some "access:u2";
                token_type := "bearer" |}
  ∧ ∃ decoded_token user,
      verify_access_token "access:u2" = Returned decoded_token
      ∧ get_User session0 (token_id decoded_token) = Some user
      ∧ "access:u2" = create_access_token (id user) 30 false.
Proof.
  split; [reflexivity|].
  destruct (refresh_access_token_outcomes "access:u2" "uuid" session0)
    as (Hreturned & _).
  destruct (Hreturned {| uid := "uuid"; access_token := "access:u2";
                         refresh_token := Some "access:u2";
                         token_type := "bearer" |} eq_refl)
    as (_ & _ & decoded_token & user & Hverify & Huser & Haccess).
  exists decoded_token, user. repeat split; assumption.
Defined.

(** The principal invites a user of role 3 under a free username: the
    answer is the [TypeError], and the session is as it was.  The canteen
    manager may not invite. *)
Lemma invite_user_never_returns_witness :
  (∃ message,
     invite_user "Abcdefghijk1" (invite_request "teacher1" 3)
       (token_of "u2") session0
     = (Raised (TypeError message), session0))
  ∧ invite_user "Abcdefghijk1" (invite_request "teacher1" 3)
      (token_of "u3") session0
    = (Raised (HTTPException 403
                 "You do not have permission to invite a user."), session0).
Proof.
  split.
  - destruct (invite_user_never_returns "Abcdefghijk1"
                (invite_request "teacher1" 3) (token_of "u2") session0)
      as (_ & _ & _ & Hawait).
    apply (Hawait principal).
    + reflexivity.
    + reflexivity.
    + vm_compute. eauto.
    + vm_compute. discriminate.
  - destruct (invite_user_never_returns "Abcdefghijk1"
                (invite_request "teacher1" 3) (token_of "u3") session0)
      as (_ & Hpermission & _).
    apply Hpermission. reflexivity.
Defined.


End RoutesMoreScenario.

(** ** The unlink routes and the adapters, continued *)

Section UnlinkMore.
Context `{AppConfig}.

(** The session after an unlink route, in a table that stores each row
    under its id. *)
Lemma oauth_unlink_session
    (provider : Provider) (token : DecodedJWTToken) (session : Session) :
  consistent session →
  (oauth_unlink provider token session).2
  = if configured provider
    then match get_User session (token_id token) with
         | Some user =>
             {| users := <[token_id token := unlinked provider user]>
                           (users session);
                roles := roles session |}
         | None => session
         end
    else session.
Proof.
  intros Hconsistent.
  destruct provider; simpl;
    unfold oauth_unlink_google, oauth_unlink_microsoft,
      oauth_unlink_facebook;
    (match goal with
     | |- context [match ?adapter with _ => _ end] =>
         destruct adapter eqn:Hadapter
     end);
    first
      [ rewrite bool_decide_eq_false_2 by (intros [? ?]; discriminate);
        reflexivity
      | rewrite bool_decide_eq_true_2 by eauto;
        (destruct (get_User session (token_id token)) as [user|] eqn:Huser;
         [|reflexivity]);
        unfold put_User; simpl;
        rewrite (map_Forall_lookup_1 _ _ _ _ Hconsistent Huser);
        reflexivity ].
Qed.

Lemma oauth_unlink_consistent
    (provider : Provider) (token : DecodedJWTToken) (session : Session) :
  consistent session → consistent (oauth_unlink provider token session).2.
Proof.
  intros Hconsistent. rewrite oauth_unlink_session by exact Hconsistent.
  destruct (configured provider); [|exact Hconsistent].
  destruct (get_User session (token_id token)) as [user|] eqn:Huser;
    [|exact Hconsistent].
  apply map_Forall_insert_2; [|exact Hconsistent].
  pose proof (map_Forall_lookup_1 _ _ _ _ Hconsistent Huser) as Hid.
  destruct provider; exact Hid.
Qed.

(** The answer of an unlink route depends on the session through the
    presence of the row only. *)
Lemma oauth_unlink_answer
    (provider : Provider) (token : DecodedJWTToken)
    (session session' : Session) :
  (is_Some (get_User session (token_id token))
   ↔ is_Some (get_User session' (token_id token))) →
  (oauth_unlink provider token session).1
  = (oauth_unlink provider token session').1.
Proof.
  intros Hpresence.
  destruct provider; simpl;
    unfold oauth_unlink_google, oauth_unlink_microsoft,
      oauth_unlink_facebook;
    (match goal with
     | |- context [match ?adapter with _ => _ end] =>
         destruct adapter; [|reflexivity]
     end);
    destruct (get_User session (token_id token)) as [user|],
      (get_User session' (token_id token)) as [user'|];
    try reflexivity.
  all: try (destruct Hpresence as [Hsome _];
            destruct Hsome as [? ?]; [eauto | discriminate]).
  all: destruct Hpresence as [_ Hsome];
       destruct Hsome as [? ?]; [eauto | discriminate].
Qed.

(** X14.  Unlinking is idempotent: in a table that stores each row under
    its id, an unlink route called again on the session that it has left
    gives the same answer and leaves that session as it is. *)
Theorem oauth_unlink_idempotent
    (provider : Provider) (token : DecodedJWTToken) (session : Session) :
  consistent session →
  oauth_unlink provider token (oauth_unlink provider token session).2
  = ((oauth_unlink provider token session).1,
     (oauth_unlink provider token session).2).
Proof.
  intros Hconsistent.
  pose proof (oauth_unlink_consistent provider token session Hconsistent)
    as Hconsistent'.
  apply injective_projections; simpl.
  - apply oauth_unlink_answer.
    rewrite (oauth_unlink_session provider token _ Hconsistent).
    destruct (configured provider); [|reflexivity].
    destruct (get_User session (token_id token)) as [user|] eqn:Huser;
      unfold get_User in *; simpl; rewrite ?Huser; [|reflexivity].
    rewrite lookup_insert_eq. split; eauto.
  - rewrite (oauth_unlink_session provider token _ Hconsistent').
    rewrite (oauth_unlink_session provider token _ Hconsistent).
    destruct (configured provider); [|reflexivity].
    destruct (get_User session (token_id token)) as [user|] eqn:Huser;
      unfold get_User in *; simpl; rewrite ?Huser; [|reflexivity].
    rewrite lookup_insert_eq. f_equal.
    rewrite insert_insert_eq. by destruct provider.
Qed.

(** X15.  The unlink routes of two providers commute: in a table that
    stores each row under its id, the session after one and then the
    other is the session after them in the other order, whichever of the
    providers are configured. *)
Theorem oauth_unlink_commute
    (provider other : Provider) (token : DecodedJWTToken)
    (session : Session) :
  consistent session →
  (oauth_unlink other token (oauth_unlink provider token session).2).2
  = (oauth_unlink provider token (oauth_unlink other token session).2).2.
Proof.
  intros Hconsistent.
  rewrite (oauth_unlink_session other token _
             (oauth_unlink_consistent provider token session Hconsistent)).
  rewrite (oauth_unlink_session provider token _
             (oauth_unlink_consistent other token session Hconsistent)).
  rewrite !(oauth_unlink_session _ token session Hconsistent).
  destruct (configured provider), (configured other); try reflexivity;
    (destruct (get_User session (token_id token)) as [user|] eqn:Huser;
     unfold get_User in *; simpl; rewrite ?Huser; [|reflexivity]);
    rewrite ?lookup_insert_eq, ?Huser; try reflexivity.
  f_equal. rewrite !insert_insert_eq. f_equal.
  by destruct provider, other.
Qed.

End UnlinkMore.

Section ExchangeMore.
Context `{Httpx}.



End ExchangeMore.

(** The principal unlinks Google twice, and Google and Facebook in both
    orders, Facebook not being configured. *)
Lemma oauth_unlink_idempotent_witness :
  @oauth_unlink Scenario.app_config Google (Scenario.token_of "u2")
    (@oauth_unlink Scenario.app_config Google (Scenario.token_of "u2")
       Scenario.session0).2
  = ((@oauth_unlink Scenario.app_config Google (Scenario.token_of "u2")
        Scenario.session0).1,
     (@oauth_unlink Scenario.app_config Google (Scenario.token_of "u2")
        Scenario.session0).2).
Proof.
  apply (@oauth_unlink_idempotent Scenario.app_config Google
           (Scenario.token_of "u2") Scenario.session0).
  exact session0_consistent.
Defined.

Lemma oauth_unlink_commute_witness :
  (@oauth_unlink Scenario.app_config Facebook (Scenario.token_of "u2")
     (@oauth_unlink Scenario.app_config Google (Scenario.token_of "u2")
        Scenario.session0).2).2
  = (@oauth_unlink Scenario.app_config Google (Scenario.token_of "u2")
       (@oauth_unlink Scenario.app_config Facebook (Scenario.token_of "u2")
          Scenario.session0).2).2.
Proof.
  apply (@oauth_unlink_commute Scenario.app_config Google Facebook
           (Scenario.token_of "u2") Scenario.session0).
  exact session0_consistent.
Defined.


(** ** The configuration objects, continued *)

Section ConfigMore.

(** [AppConfig] cannot be built without an authentication
    configuration: the section that is left out is built with no keys,
    which raises [ValueError], whatever the other sections are.  With
    one, it is built, and each section that is left out is the one that
    its class builds from no arguments. *)
Lemma AppConfig_init_requires_authentication
    (cwd : string) (debug : option Untyped.Debug)
    (logging : option Untyped.Logging)
    (database : option Untyped.Database)
    (test_database : option Untyped.TestDatabase)
    (security : option Untyped.Security) :
  Untyped.AppConfig_init cwd debug logging database test_database None
    security
  = Raised (ValueError
      "Signing or encryption secret key is empty in configuration file.")
  ∧ ∀ authentication,
      Untyped.AppConfig_init cwd debug logging database test_database
        (Some authentication) security
      = Returned
          {| Untyped.cfg_debug :=
               default (Untyped.Debug_init JNull JNull) debug;
             Untyped.cfg_logging :=
               default
                 (Untyped.Logging_init cwd JNull JNull JNull JNull JNull
                    JNull)
                 logging;
             Untyped.cfg_database :=
               default
                 (Untyped.Database_init JNull JNull JNull JNull JNull JNull
                    JNull)
                 database;
             Untyped.cfg_test_database :=
               default (Untyped.TestDatabase_init cwd JNull) test_database;
             Untyped.cfg_authentication := authentication;
             Untyped.cfg_security :=
               default (Untyped.Security_init JNull JNull JNull JNull)
                 security |}.
Proof. split; reflexivity. Qed.

End ConfigMore.

Section ConfigFileMore.

(** On arguments of the annotated types, [or] on decoded values is [or]
    at the type. *)
Lemma value_or_of_bool (x : option bool) (d : bool) :
  value_or (of_bool x) (JBool d) = JBool (py_or x d).
Proof. by destruct x as [[]|]. Qed.

Lemma value_or_of_int (x : option Z) (d : Z) :
  value_or (of_int x) (JNum d) = JNum (py_or x d).
Proof.
  destruct x as [z|]; [|reflexivity].
  unfold value_or, py_or. simpl.
  change (truthy (JNum z)) with (negb (Z.eqb z 0)).
  change (truthy z) with (negb (Z.eqb z 0)). by destruct (Z.eqb z 0).
Qed.

Lemma value_or_of_str (x : option string) (d : string) :
  value_or (of_str x) (JStr d) = JStr (py_or x d).
Proof. by destruct x as [[]|]. Qed.

Lemma value_or_of_strs (x : option (list string)) (d : list string) :
  value_or (of_strs x) (JArr (JStr <$> d)) = JArr (JStr <$> py_or x d).
Proof. by destruct x as [[]|]. Qed.

(** On arguments of the annotated types, the classes at decoded values
    build what [Security] and [Authentication] build. *)
Lemma Security_init_of_typed
    (allow_origins : option (list string)) (allow_credentials : option bool)
    (allow_methods allow_headers : option (list string)) :
  Untyped.Security_init (of_strs allow_origins) (of_bool allow_credentials)
    (of_strs allow_methods) (of_strs allow_headers)
  = Security_values
      (Security_init allow_origins allow_credentials allow_methods
         allow_headers).
Proof.
  unfold Untyped.Security_init, Security_values, Security_init. simpl.
  rewrite <- value_or_of_bool, <- !value_or_of_strs. reflexivity.
Qed.

Lemma Authentication_init_of_typed
    (sk rk ek signing_algorithm encryption_algorithm encoding
     : option string)
    (access_token_expire_minutes refresh_token_expire_minutes : option Z) :
  Untyped.Authentication_init (of_str sk) (of_str rk) (of_str ek)
    (of_str signing_algorithm) (of_str encryption_algorithm)
    (of_str encoding) (of_int access_token_expire_minutes)
    (of_int refresh_token_expire_minutes)
  = match Authentication_init sk rk ek signing_algorithm
            encryption_algorithm encoding access_token_expire_minutes
            refresh_token_expire_minutes with
    | Raised e => Raised e
    | Returned authentication =>
        Returned (Authentication_values authentication)
    end.
Proof.
  destruct sk, rk, ek; try reflexivity.
  unfold Untyped.Authentication_init, Authentication_values. simpl.
  rewrite <- !value_or_of_str, <- !value_or_of_int. reflexivity.
Qed.

(** [section.get(key, None)] returns for an object only: the member of
    that name, [None] without one. *)
Lemma dict_get_returned (section : Json) (key : string) (value : Json) :
  dict_get section key = Returned value →
  ∃ fields, section = JObj fields
            ∧ value = default JNull (last_member key fields).
Proof.
  destruct section; try discriminate. simpl. intros [= <-]. eauto.
Qed.

Lemma value_or_truthy (value fallback : Json) :
  truthy fallback = true → truthy (value_or value fallback) = true.
Proof.
  unfold value_or. destruct (truthy value) eqn:Hvalue; auto.
Qed.

(** One step of [read_config_file] that has gone through. *)
Ltac step :=
  match goal with
  | |- mbind _ ?m = Returned _ → _ =>
      let Hstep := fresh "Hstep" in
      destruct m eqn:Hstep; simpl; [discriminate|]
  end.

(** What a configuration that [read_config_file] returns comes from. *)
Lemma read_config_file_returned
    (cwd : string) (config : Json) (cfg : Untyped.AppConfig) :
  Untyped.read_config_file cwd config = Returned cfg →
  ∃ fields sk rk ek allow_origins allow_credentials allow_methods
    allow_headers,
    config = JObj fields
    ∧ dict_get (default (JObj []) (last_member "authentication" fields))
        "signing_secret_key" = Returned sk
    ∧ dict_get (default (JObj []) (last_member "authentication" fields))
        "refresh_signing_secret_key" = Returned rk
    ∧ dict_get (default (JObj []) (last_member "authentication" fields))
        "encryption_secret_key" = Returned ek
    ∧ is_None sk || is_None rk || is_None ek = false
    ∧ Untyped.signing_secret_key (Untyped.cfg_authentication cfg) = sk
    ∧ Untyped.refresh_signing_secret_key (Untyped.cfg_authentication cfg)
      = rk
    ∧ Untyped.encryption_secret_key (Untyped.cfg_authentication cfg) = ek
    ∧ dict_get (default (JObj []) (last_member "security" fields))
        "allow_credentials" = Returned allow_credentials
    ∧ Untyped.cfg_security cfg
      = Untyped.Security_init allow_origins allow_credentials
          allow_methods allow_headers.
Proof.
  unfold Untyped.read_config_file.
  destruct config as [| | | | |fields]; try discriminate.
  unfold get_section. simpl. repeat step. intros [= <-].
  match goal with
  | Hinit : Untyped.Authentication_init ?sk ?rk ?ek _ _ _ _ _ = Returned _
    |- _ =>
      unfold Untyped.Authentication_init in Hinit;
      destruct (is_None sk || is_None rk || is_None ek) eqn:Hkeys;
      [discriminate|]; injection Hinit as <-
  end.
  simpl. do 8 eexists. repeat split; eassumption.
Qed.

(** X17.  [read_config_file] returns a configuration only for a document
    whose [authentication] section is an object that holds the three
    secret keys, each with a value other than [null], and the
    configuration holds those values as they are, of whatever type.  A
    document without the section, without one of the keys or with [null]
    for one does not get past the reading. *)
Theorem read_config_file_requires_keys
    (cwd : string) (config : Json) (cfg : Untyped.AppConfig) :
  Untyped.read_config_file cwd config = Returned cfg →
  ∃ fields authentication_config sk rk ek,
    config = JObj fields
    ∧ last_member "authentication" fields = Some (JObj authentication_config)
    ∧ last_member "signing_secret_key" authentication_config = Some sk
    ∧ last_member "refresh_signing_secret_key" authentication_config
      = Some rk
    ∧ last_member "encryption_secret_key" authentication_config = Some ek
    ∧ sk ≠ JNull ∧ rk ≠ JNull ∧ ek ≠ JNull
    ∧ Untyped.signing_secret_key (Untyped.cfg_authentication cfg) = sk
    ∧ Untyped.refresh_signing_secret_key (Untyped.cfg_authentication cfg)
      = rk
    ∧ Untyped.encryption_secret_key (Untyped.cfg_authentication cfg) = ek.
Proof.
  intros (fields & sk & rk & ek & _ & _ & _ & _ & -> & Hsk & Hrk & Hek
          & Hkeys & Hcfg_sk & Hcfg_rk & Hcfg_ek & _)%read_config_file_returned.
  apply dict_get_returned in Hsk as (section & Hsection & Hsk).
  apply dict_get_returned in Hrk as (section' & Hsection' & Hrk).
  apply dict_get_returned in Hek as (section'' & Hsection'' & Hek).
  rewrite Hsection in Hsection', Hsection''.
  injection Hsection' as <-. injection Hsection'' as <-.
  apply orb_false_elim in Hkeys as [[Hsk_null Hrk_null]%orb_false_elim
                                     Hek_null].
  exists fields, section, sk, rk, ek.
  assert (Hmember : ∀ key value,
            value = default JNull (last_member key section) →
            is_None value = false →
            last_member key section = Some value ∧ value ≠ JNull).
  { intros key value -> Hnull.
    destruct (last_member key section) as [member|]; [|discriminate].
    simpl in *. split; [reflexivity|]. intros ->. discriminate. }
  destruct (Hmember _ _ Hsk Hsk_null), (Hmember _ _ Hrk Hrk_null),
    (Hmember _ _ Hek Hek_null).
  repeat split; try assumption.
  destruct (last_member "authentication" fields) as [document|];
    simpl in Hsection.
  - by rewrite Hsection.
  - injection Hsection as <-. discriminate.
Qed.

(** X18.  No configuration file turns [allow_credentials] off: in every
    configuration that [read_config_file] returns, [allow_credentials] is
    truthy.  It is the value that the [security] section gives for it
    when that value is truthy, of whatever type it is, and [True] when
    the value is [false], [null], another falsy value or missing. *)
Theorem read_config_file_allow_credentials
    (cwd : string) (config : Json) (cfg : Untyped.AppConfig) :
  Untyped.read_config_file cwd config = Returned cfg →
  truthy (Untyped.allow_credentials (Untyped.cfg_security cfg)) = true
  ∧ Untyped.allow_credentials (Untyped.cfg_security cfg) ≠ JBool false
  ∧ ∃ fields security_config,
      config = JObj fields
      ∧ default (JObj []) (last_member "security" fields)
        = JObj security_config
      ∧ let given :=
          default JNull (last_member "allow_credentials" security_config) in
        (truthy given = true →
         Untyped.allow_credentials (Untyped.cfg_security cfg) = given)
        ∧ (truthy given = false →
           Untyped.allow_credentials (Untyped.cfg_security cfg)
           = JBool true).
Proof.
  intros (fields & sk & rk & ek & allow_origins & allow_credentials
          & allow_methods & allow_headers & -> & _ & _ & _ & _ & _ & _ & _
          & Hgiven & ->)%read_config_file_returned.
  apply dict_get_returned in Hgiven as (security_config & Hsection & ->).
  simpl. split; [by apply value_or_truthy|]. split.
  - intros Hfalse.
    pose proof (value_or_truthy
                  (default JNull
                     (last_member "allow_credentials" security_config))
                  (JBool true) eq_refl) as Htruthy.
    rewrite Hfalse in Htruthy. discriminate.
  - exists fields, security_config. repeat split; try assumption.
    + unfold value_or. by intros ->.
    + unfold value_or. by intros ->.
Qed.

Lemma string_app_assoc (s1 s2 s3 : string) :
  (s1 +:+ s2) +:+ s3 = s1 +:+ (s2 +:+ s3).
Proof.
  induction s1 as [|a s1 IH]; [reflexivity|].
  change (String a ((s1 +:+ s2) +:+ s3) = String a (s1 +:+ (s2 +:+ s3))).
  by rewrite IH.
Qed.


(** X20.  The URI of the database does not determine the credentials:
    the user name and the password are put in as they are, so a colon in
    the user name reads as the start of the password. *)
Theorem Database_sqlalchemy_uri_colon_shift
    (db_type db_driver user middle pass host database : string)
    (port : Z) :
  Database_sqlalchemy_uri
    (mkDatabase db_type db_driver (user +:+ ":" +:+ middle) pass host port
       database)
  = Database_sqlalchemy_uri
      (mkDatabase db_type db_driver user (middle +:+ ":" +:+ pass) host
         port database).
Proof.
  unfold Database_sqlalchemy_uri. simpl.
  rewrite !string_app_assoc. reflexivity.
Qed.

End ConfigFileMore.

(** The scenario's file holds the three keys; the other file holds a
    number, an empty string and a list for them, and is read as well. *)
Lemma read_config_file_requires_keys_witness :
  (∃ cfg,
     Untyped.read_config_file "/srv/scars" ScenarioRest.config_document
     = Returned cfg
     ∧ Untyped.signing_secret_key (Untyped.cfg_authentication cfg)
       = JStr TestConfigHandler.VALID_SIGNING_KEY)
  ∧ (∃ cfg,
       Untyped.read_config_file "/srv/scars" ScenarioRest.odd_document
       = Returned cfg
       ∧ Untyped.signing_secret_key (Untyped.cfg_authentication cfg)
         = JNum 0
       ∧ Untyped.refresh_signing_secret_key (Untyped.cfg_authentication cfg)
         = JStr ""
       ∧ Untyped.encryption_secret_key (Untyped.cfg_authentication cfg)
         = JArr []).
Proof.
  split.
  - destruct (Untyped.read_config_file "/srv/scars"
                ScenarioRest.config_document) as [e|cfg] eqn:Hread;
      [discriminate|].
    exists cfg. split; [reflexivity|].
    destruct (read_config_file_requires_keys "/srv/scars"
                ScenarioRest.config_document cfg Hread)
      as (fields & authentication_config & sk & rk & ek & [= <-] & [= <-]
          & [= <-] & _ & _ & _ & _ & _ & Hsk & _).
    exact Hsk.
  - destruct (Untyped.read_config_file "/srv/scars"
                ScenarioRest.odd_document) as [e|cfg] eqn:Hread;
      [discriminate|].
    exists cfg. split; [reflexivity|].
    destruct (read_config_file_requires_keys "/srv/scars"
                ScenarioRest.odd_document cfg Hread)
      as (fields & authentication_config & sk & rk & ek & [= <-] & [= <-]
          & [= <-] & [= <-] & [= <-] & _ & _ & _ & Hsk & Hrk & Hek).
    repeat split; assumption.
Defined.

(** The scenario's file says [allow_credentials: false], and the
    configuration holds [True]; the other file says ["no"], and the
    configuration holds ["no"]. *)
Lemma read_config_file_allow_credentials_witness :
  (∃ cfg,
     Untyped.read_config_file "/srv/scars" ScenarioRest.config_document
     = Returned cfg
     ∧ Untyped.allow_credentials (Untyped.cfg_security cfg) = JBool true)
  ∧ (∃ cfg,
       Untyped.read_config_file "/srv/scars" ScenarioRest.odd_document
       = Returned cfg
       ∧ Untyped.allow_credentials (Untyped.cfg_security cfg) = JStr "no").
Proof.
  split.
  - destruct (Untyped.read_config_file "/srv/scars"
                ScenarioRest.config_document) as [e|cfg] eqn:Hread;
      [discriminate|].
    exists cfg. split; [reflexivity|].
    destruct (read_config_file_allow_credentials "/srv/scars"
                ScenarioRest.config_document cfg Hread)
      as (_ & _ & fields & security_config & [= <-] & [= <-] & _ & Hfalsy).
    apply Hfalsy. reflexivity.
  - destruct (Untyped.read_config_file "/srv/scars"
                ScenarioRest.odd_document) as [e|cfg] eqn:Hread;
      [discriminate|].
    exists cfg. split; [reflexivity|].
    destruct (read_config_file_allow_credentials "/srv/scars"
                ScenarioRest.odd_document cfg Hread)
      as (_ & _ & fields & security_config & [= <-] & [= <-] & Htruthy & _).
    apply Htruthy. reflexivity.
Defined.


(** ** Populating the database *)

Section PopulateDb.
Context `{AuthHandler} `{Unicode} `{Defaults}.

Lemma copied_role (role : Role) :
  {| role_id := role_id role; description := description role;
     modifiable := modifiable role |} = role.
Proof. by destruct role. Qed.

Lemma copied_roles (new_roles : list Role) :
  (λ role, {| role_id := role_id role; description := description role;
              modifiable := modifiable role |}) <$> new_roles
  = new_roles.
Proof.
  induction new_roles as [|role rest IH]; [reflexivity|].
  rewrite fmap_cons, IH, copied_role. reflexivity.
Qed.

(** What [add_all_Role] has written when it returns. *)
Lemma add_all_Role_returned (new_roles : list Role) :
  ∀ session session',
    add_all_Role session new_roles = Returned session' →
    users session' = users session
    ∧ (∀ key role, roles session !! key = Some role →
         roles session' !! key = Some role)
    ∧ (∀ role, role ∈ new_roles →
         roles session' !! role_id role = Some role)
    ∧ (∀ key role, roles session' !! key = Some role →
         role ∈ new_roles ∨ roles session !! key = Some role).
Proof.
  induction new_roles as [|new_role rest IH]; intros session session'.
  - intros [= <-]. repeat split; try done.
    + intros role Hin. by apply not_elem_of_nil in Hin.
    + eauto.
  - simpl. unfold get_Role.
    destruct (roles session !! role_id new_role) eqn:Hfree;
      [discriminate|].
    intros (Husers & Hkept & Hadded & Hfrom)%IH. simpl in *.
    repeat split.
    + exact Husers.
    + intros key role Hrole. apply Hkept.
      rewrite lookup_insert_ne; [exact Hrole | congruence].
    + intros role [-> | Hin]%elem_of_cons; [|by apply Hadded].
      apply Hkept. apply lookup_insert_eq.
    + intros key role Hrole.
      destruct (Hfrom key role Hrole) as [Hin | Hput].
      * left. by right.
      * rewrite lookup_insert in Hput. case_decide; simplify_eq.
        -- left. left.
        -- by right.
Qed.

(** [add_all_Role] returns when the ids are new and differ from one
    another. *)
Lemma add_all_Role_returns (new_roles : list Role) :
  ∀ session,
    NoDup (role_id <$> new_roles) →
    (∀ role, role ∈ new_roles → roles session !! role_id role = None) →
    ∃ session', add_all_Role session new_roles = Returned session'.
Proof.
  induction new_roles as [|new_role rest IH]; intros session Hnodup Hfree.
  - by eexists.
  - simpl. unfold get_Role.
    rewrite (Hfree new_role) by left.
    apply NoDup_cons in Hnodup as [Hnotin Hnodup].
    apply IH; [exact Hnodup|].
    intros role Hin. simpl. rewrite lookup_insert_ne.
    + apply Hfree. by right.
    + intros Heq. apply Hnotin. rewrite Heq.
      apply list_elem_of_fmap. eauto.
Qed.

Lemma all_Role_truthy (session : Session) :
  truthy (all_Role session) = false ↔ roles session = ∅.
Proof.
  unfold all_Role. rewrite <- map_to_list_empty_iff.
  destruct (map_to_list (roles session)); simpl; split;
    (done || discriminate).
Qed.

Lemma first_User_truthy (session : Session) :
  truthy (first_User session) = false ↔ users session = ∅.
Proof.
  unfold first_User. rewrite <- map_to_list_empty_iff.
  destruct (map_to_list (users session)); simpl; split;
    (done || discriminate).
Qed.

(** With both guards false, [populate_db] has nothing to do. *)
Lemma populate_db_guards_false (new_id : string) (session : Session) :
  truthy (all_Role session) = true →
  truthy (first_User session) = true →
  populate_db new_id session = (Returned false, session).
Proof.
  intros Hall Hfirst. unfold populate_db. rewrite Hall. simpl.
  rewrite Hfirst. reflexivity.
Qed.

Lemma all_Role_truthy_true (session : Session) :
  roles session ≠ ∅ → truthy (all_Role session) = true.
Proof.
  intros Hroles. destruct (truthy (all_Role session)) eqn:Hall;
    [reflexivity | by apply all_Role_truthy in Hall].
Qed.

Lemma first_User_truthy_true (session : Session) :
  users session ≠ ∅ → truthy (first_User session) = true.
Proof.
  intros Husers. destruct (truthy (first_User session)) eqn:Hfirst;
    [reflexivity | by apply first_User_truthy in Hfirst].
Qed.

(** X21.  On a database that has a role and a user, [populate_db]
    writes nothing and returns [False]. *)
Theorem populate_db_populated (new_id : string) (session : Session) :
  roles session ≠ ∅ → users session ≠ ∅ →
  populate_db new_id session = (Returned false, session).
Proof.
  intros Hroles Husers.
  apply populate_db_guards_false;
    [by apply all_Role_truthy_true | by apply first_User_truthy_true].
Qed.


(** X23.  On a database without roles and users, with default roles of
    different ids and a well-formed default user name and password,
    [populate_db] commits the default roles and the default user and then
    raises [TypeError]: it awaits the [User] that [create_user] has
    returned.  The role table then holds the default roles, each under
    its id, and nothing else, and the user table holds one user, the
    default user with role 1 and the hash of the default password.  With
    a default role, the next run finds the database populated and
    returns [False]. *)
Theorem populate_db_empty (new_id : string) (session' : Session)
    (outcome : Result bool) :
  NoDup (role_id <$> DEFAULT_ROLES) →
  validate_username default_user = true →
  validate_password default_password = true →
  populate_db new_id {| users := ∅; roles := ∅ |} = (outcome, session') →
  (∃ message, outcome = Raised (TypeError message))
  ∧ (∀ role, role ∈ DEFAULT_ROLES →
       get_Role session' (role_id role) = Some role)
  ∧ (∀ key role, get_Role session' key = Some role →
       role ∈ DEFAULT_ROLES)
  ∧ users session'
    = {[ new_id := User_new new_id default_user
                     (crypt_hash default_password) 1 ]}
  ∧ (DEFAULT_ROLES ≠ [] →
     ∀ other_id,
       populate_db other_id session' = (Returned false, session')).
Proof.
  intros Hnodup Hname Hpass. unfold populate_db at 1. simpl.
  rewrite copied_roles.
  destruct (add_all_Role_returns DEFAULT_ROLES {| users := ∅; roles := ∅ |}
              Hnodup ltac:(done)) as [added Hadded].
  rewrite Hadded. simpl.
  destruct (add_all_Role_returned _ _ _ Hadded)
    as (Husers & _ & Hstored & Hfrom). simpl in *.
  assert (Hnone : truthy (first_User added) = false)
    by by apply first_User_truthy.
  assert (Hnoroles :
            truthy (all_Role {| users := ∅; roles := ∅ |}) = false)
    by by apply all_Role_truthy.
  rewrite Hnoroles. simpl. rewrite Hnone. simpl.
  assert (Hfree : first_User_where_username added default_user = None).
  { apply first_User_where_username_None. intros key u.
    by rewrite Husers. }
  rewrite (create_user_returns new_id default_user_request added)
    by (try done; unfold get_User; by rewrite Husers).
  simpl. intros [= <- <-]. simpl.
  split; [eexists; reflexivity|].
  split; [exact Hstored|].
  split; [intros key role Hrole; by destruct (Hfrom key role Hrole)|].
  split; [by rewrite Husers|].
  intros Hdefaults other_id. apply populate_db_guards_false.
  - apply all_Role_truthy_true. simpl.
    destruct DEFAULT_ROLES as [|role rest]; [done|].
    intros Hempty. specialize (Hstored role ltac:(left)).
    unfold get_Role in Hstored. by rewrite Hempty in Hstored.
  - apply first_User_truthy_true. simpl. rewrite Husers.
    apply insert_non_empty.
Qed.

(** X24.  [populate_db] is not atomic: when the default user name is
    malformed, the run on a database without roles and users raises the
    400 of [create_user] after the default roles have been committed;
    the role table holds them and the user table is empty. *)
Theorem populate_db_roles_without_user (new_id : string)
    (session' : Session) (outcome : Result bool) :
  NoDup (role_id <$> DEFAULT_ROLES) →
  validate_username default_user = false →
  populate_db new_id {| users := ∅; roles := ∅ |} = (outcome, session') →
  outcome = Raised (HTTPException 400 "Invalid username")
  ∧ (∀ role, role ∈ DEFAULT_ROLES →
       get_Role session' (role_id role) = Some role)
  ∧ users session' = ∅.
Proof.
  intros Hnodup Hname. unfold populate_db. simpl.
  rewrite copied_roles.
  destruct (add_all_Role_returns DEFAULT_ROLES {| users := ∅; roles := ∅ |}
              Hnodup ltac:(done)) as [added Hadded].
  rewrite Hadded. simpl.
  destruct (add_all_Role_returned _ _ _ Hadded)
    as (Husers & _ & Hstored & _). simpl in *.
  assert (Hnone : truthy (first_User added) = false)
    by by apply first_User_truthy.
  assert (Hnoroles :
            truthy (all_Role {| users := ∅; roles := ∅ |}) = false)
    by by apply all_Role_truthy.
  rewrite Hnoroles. simpl. rewrite Hnone. simpl.
  assert (Hfree : first_User_where_username added default_user = None).
  { apply first_User_where_username_None. intros key u.
    by rewrite Husers. }
  unfold create_user. simpl. rewrite Hfree, Hname. simpl.
  intros [= <- <-]. repeat split; assumption.
Qed.

End PopulateDb.

(** *** Populating the scenario *)

Section PopulateDbScenario.
Import Scenario ScenarioRest.
#[local] Existing Instance auth_handler.
#[local] Existing Instance latin1.

#[local] Existing Instance defaults.

Ltac distinct_ids :=
  let Hin := fresh "Hin" in
  intros Hin;
  repeat (apply elem_of_cons in Hin as [Hin|Hin]; [discriminate|]);
  by apply elem_of_nil in Hin.

Lemma populate_db_populated_witness :
  @populate_db auth_handler latin1 defaults "u9" session0
  = (Returned false, session0).
Proof.
  apply (@populate_db_populated auth_handler latin1 defaults "u9" session0);
    intros Hempty.
  - assert (Hrole : roles session0 !! 1 = None) by by rewrite Hempty.
    discriminate.
  - assert (Hrow : users session0 !! "u1" = None) by by rewrite Hempty.
    discriminate.
Defined.


(** The first run on the empty database raises after it has written the
    default user, and the second run returns [False]. *)
Lemma populate_db_empty_witness :
  (∃ message,
     (populate_db "u1" empty_session).1 = Raised (TypeError message))
  ∧ users (populate_db "u1" empty_session).2
    = {[ "u1" := User_new "u1" "scars" (hash "Passw0rd") 1 ]}
  ∧ populate_db "u2" (populate_db "u1" empty_session).2
    = (Returned false, (populate_db "u1" empty_session).2).
Proof.
  destruct (populate_db_empty "u1" (populate_db "u1" empty_session).2
              (populate_db "u1" empty_session).1)
    as (Houtcome & _ & _ & Husers & Hnext).
  - simpl. repeat (apply NoDup_cons_2; [distinct_ids|]). apply NoDup_nil_2.
  - reflexivity.
  - reflexivity.
  - apply surjective_pairing.
  - split; [exact Houtcome|]. split; [exact Husers|].
    apply Hnext. discriminate.
Defined.

(** The default user name [su] is too short. *)
Lemma populate_db_roles_without_user_witness :
  (@populate_db auth_handler latin1 short_name_defaults "u1" empty_session).1
  = Raised (HTTPException 400 "Invalid username")
  ∧ get_Role
      (@populate_db auth_handler latin1 short_name_defaults "u1" empty_session).2
      1
    = Some (mkRole 1 "Superintendent" false).
Proof.
  destruct (@populate_db_roles_without_user auth_handler
              latin1 short_name_defaults "u1"
              (@populate_db auth_handler latin1 short_name_defaults "u1"
                 empty_session).2
              (@populate_db auth_handler latin1 short_name_defaults "u1"
                 empty_session).1)
    as (Houtcome & Hroles & _).
  - simpl. repeat (apply NoDup_cons_2; [distinct_ids|]). apply NoDup_nil_2.
  - reflexivity.
  - apply surjective_pairing.
  - split; [exact Houtcome|].
    apply (Hroles (mkRole 1 "Superintendent" false)). left.
Defined.

End PopulateDbScenario.

(** ** The logger factory *)

Section LoggerMore.

(** X25.  [get_logger] sets up the handlers of a logger once.  When it
    has returned a logger, the logger has handlers, and every later
    [get_logger] for that name, by any factory with a level that the
    library knows, under any logging configuration and whether the log
    file can be opened or not, returns the logger with the handlers that
    it had and the level asked for. *)
Theorem get_logger_sets_up_handlers_once
    `{LoggingLibrary} (logging : Logging) (self : LoggerFactory)
    (name time : string) (registry registry' : gmap string LoggerObject)
    (logger : LoggerObject) :
  get_logger logging self name time registry
  = (Returned logger, registry') →
  handlers logger ≠ []
  ∧ registry' !! logger_key name = Some logger
  ∧ ∀ (library : LoggingLibrary) (logging' : Logging)
      (other : LoggerFactory) (time' : string) (level' : Z),
      @asks_for library other level' →
      @get_logger library logging' other name time' registry'
      = (Returned {| level := level'; handlers := handlers logger |},
         <[logger_key name :=
             {| level := level'; handlers := handlers logger |}]>
           registry').
Proof.
  intros Hfirst.
  assert (Hdone : handlers logger ≠ []
                  ∧ registry' !! logger_key name = Some logger).
  { revert Hfirst. unfold get_logger, getLogger.
    destruct (registry !! logger_key name)
      as [[known_level [|handler rest]]|] eqn:Hknown;
      (destruct (match log_level self with
                 | IntLevel level => _
                 | StrLevel level_name => _
                 | OtherLevel => _
                 end) as [e|new_level]; [discriminate|]); simpl.
    - destruct (open_log_file (filepath logging) time);
        [discriminate|].
      intros [= <- <-]. simpl. split; [done|]. apply lookup_insert_eq.
    - intros [= <- <-]. simpl. split; [done|]. apply lookup_insert_eq.
    - destruct (open_log_file (filepath logging) time); [discriminate|].
      intros [= <- <-]. simpl. split; [done|]. apply lookup_insert_eq. }
  destruct Hdone as [Hhandlers Hregistered].
  repeat split; try assumption.
  intros library logging' other time' level' Hlevel.
  unfold get_logger, getLogger. rewrite Hregistered.
  assert (Hlevel' :
            match log_level other with
            | IntLevel level => mret level
            | StrLevel level_name => check_level level_name
            | OtherLevel =>
                raise (ValueError
                         "Invalid log level type. Must be int or str.")
            end = Returned level').
  { destruct Hlevel as [-> | (level_name & -> & Hcheck)];
      [reflexivity | exact Hcheck]. }
  rewrite Hlevel'. simpl.
  destruct (handlers logger); [done | reflexivity].
Qed.

(** X26.  A level that is neither an [int] nor a [str] makes
    [get_logger] raise [ValueError] before the level is set and before any
    handler is made: the loggers of the registry are as they were, and a
    logger that the call has registered is as the library makes it,
    without handlers, the root logger at [WARNING] and any other at
    [NOTSET]. *)
Theorem get_logger_wrong_level_type
    `{LoggingLibrary} (logging : Logging) (self : LoggerFactory)
    (name time : string) (registry : gmap string LoggerObject) :
  log_level self = OtherLevel →
  (get_logger logging self name time registry).1
  = Raised (ValueError "Invalid log level type. Must be int or str.")
  ∧ (∀ key logger, registry !! key = Some logger →
       (get_logger logging self name time registry).2 !! key
       = Some logger)
  ∧ (∀ key logger,
       (get_logger logging self name time registry).2 !! key
       = Some logger →
       registry !! key = Some logger
       ∨ (key = logger_key name ∧ registry !! key = None
          ∧ logger = {| level := if bool_decide (key = "root")
                                 then WARNING else NOTSET;
                        handlers := [] |})).
Proof.
  intros Hlevel. unfold get_logger, getLogger. rewrite Hlevel.
  destruct (registry !! logger_key name) as [known|] eqn:Hknown; simpl.
  - split; [reflexivity|]. split; [auto|]. intros key logger Hkey.
    by left.
  - split; [reflexivity|]. split.
    + intros key logger Hkey. rewrite lookup_insert_ne; [done|].
      congruence.
    + intros key logger. rewrite lookup_insert.
      case_decide as Hkey.
      * intros [= <-]. right. by subst key.
      * intros Hlogger. by left.
Qed.

End LoggerMore.

Lemma get_logger_sets_up_handlers_once_witness :
  @get_logger ScenarioRest.read_only_library ScenarioRest.logging_config
    (LoggerFactory_init (Debug_init (Some true) None) None)
    "centralserver.routers" "2025-06-15_12-00-00"
    (@get_logger ScenarioRest.logging_library ScenarioRest.logging_config
       (LoggerFactory_init (Debug_init None None) None)
       "centralserver.routers" "2025-06-15_11-00-00" ∅).2
  = (Returned
       {| level := 10;
          handlers :=
            handlers
              {| level := 30;
                 handlers :=
                   [StreamHandler
                      "%(asctime)s:%(name)s:%(levelname)s:%(message)s"
                      "%d-%m-%y_%H-%M-%S";
                    FileHandler "/var/log/scars.log" 10485760 5 "utf-8"
                      "%(asctime)s:%(name)s:%(levelname)s:%(message)s"
                      "%d-%m-%y_%H-%M-%S"] |} |},
     <["centralserver.routers" :=
         {| level := 10;
            handlers :=
              [StreamHandler
                 "%(asctime)s:%(name)s:%(levelname)s:%(message)s"
                 "%d-%m-%y_%H-%M-%S";
               FileHandler "/var/log/scars.log" 10485760 5 "utf-8"
                 "%(asctime)s:%(name)s:%(levelname)s:%(message)s"
                 "%d-%m-%y_%H-%M-%S"] |}]>
       (@get_logger ScenarioRest.logging_library
          ScenarioRest.logging_config
          (LoggerFactory_init (Debug_init None None) None)
          "centralserver.routers" "2025-06-15_11-00-00" ∅).2).
Proof.
  destruct (@get_logger_sets_up_handlers_once ScenarioRest.logging_library
              ScenarioRest.logging_config
              (LoggerFactory_init (Debug_init None None) None)
              "centralserver.routers" "2025-06-15_11-00-00" ∅
              (@get_logger ScenarioRest.logging_library
                 ScenarioRest.logging_config
                 (LoggerFactory_init (Debug_init None None) None)
                 "centralserver.routers" "2025-06-15_11-00-00" ∅).2
              {| level := 30;
                 handlers :=
                   [StreamHandler
                      "%(asctime)s:%(name)s:%(levelname)s:%(message)s"
                      "%d-%m-%y_%H-%M-%S";
                    FileHandler "/var/log/scars.log" 10485760 5 "utf-8"
                      "%(asctime)s:%(name)s:%(levelname)s:%(message)s"
                      "%d-%m-%y_%H-%M-%S"] |})
    as (_ & _ & Hlater).
  - vm_compute. reflexivity.
  - apply (Hlater ScenarioRest.read_only_library
             ScenarioRest.logging_config
             (LoggerFactory_init (Debug_init (Some true) None) None)
             "2025-06-15_12-00-00" 10).
    right. exists "DEBUG". split; reflexivity.
Defined.

(** On a registry that holds no logger yet, the call for the root logger
    leaves it at [WARNING], and the call for [centralserver] leaves a new
    logger at [NOTSET]. *)
Lemma get_logger_wrong_level_type_witness :
  (@get_logger ScenarioRest.logging_library ScenarioRest.logging_config
     (LoggerFactory_init (Debug_init None None) (Some OtherLevel))
     "" "2025-06-15_11-00-00" ∅).1
  = Raised (ValueError "Invalid log level type. Must be int or str.")
  ∧ (@get_logger ScenarioRest.logging_library ScenarioRest.logging_config
       (LoggerFactory_init (Debug_init None None) (Some OtherLevel))
       "" "2025-06-15_11-00-00" ∅).2 !! "root"
    = Some {| level := 30; handlers := [] |}
  ∧ (@get_logger ScenarioRest.logging_library ScenarioRest.logging_config
       (LoggerFactory_init (Debug_init None None) (Some OtherLevel))
       "centralserver" "2025-06-15_11-00-00" ∅).2 !! "centralserver"
    = Some {| level := 0; handlers := [] |}.
Proof.
  split; [|split].
  - apply (@get_logger_wrong_level_type ScenarioRest.logging_library
             ScenarioRest.logging_config
             (LoggerFactory_init (Debug_init None None) (Some OtherLevel))
             "" "2025-06-15_11-00-00" ∅).
    reflexivity.
  - reflexivity.
  - reflexivity.
Defined.

